(** * Token lifecycle of the FastAPI JWT service (main.py, models.py)

    A shallow embedding of the token issuer, the verifier, the refresh
    (rotation) endpoint, the logout endpoint and the admin revocation
    endpoint of [main.py], over the two tables of [models.py] that they
    touch and the two module-level sets [_revoked_jtis] and
    [_valid_refresh_jtis].

    Python state is threaded explicitly: every operation is a function from
    a [World] to a result and the world it leaves behind.  A raised
    exception is a result like any other, and the world it leaves behind is
    the world at the point of the [raise]: the in-memory sets and the
    committed rows keep the changes made before it. *)

From Stdlib Require Import ZArith Ascii String List Bool Lia.
From stdpp Require Import base strings gmap pretty.
Import ListNotations.
Local Open Scope string_scope.
Local Open Scope Z_scope.

(** ** Python values *)

(** The JSON values that occur in the claims of this application.  Floats
    and nested objects do not occur and are left out of the type. *)
#[warnings="-register-all"] Inductive value : Type :=
| VNone
| VBool (b : bool)
| VInt (z : Z)
| VStr (s : string)
| VList (l : list value).

(** A Python [dict] with string keys, in insertion order. *)
Definition dict : Type := list (string * value).

(** [k in d] *)
Fixpoint dict_contains (d : dict) (k : string) : bool :=
  match d with
  | [] => false
  | (k', _) :: d' => if String.eqb k' k then true else dict_contains d' k
  end.

(** [d.get(k)]: the value under [k], [None] when the key is absent. *)
Fixpoint dict_get (d : dict) (k : string) : value :=
  match d with
  | [] => VNone
  | (k', v) :: d' => if String.eqb k' k then v else dict_get d' k
  end.

(** [d[k] = v]: an existing key keeps its place, a new one goes last. *)
Fixpoint dict_set (d : dict) (k : string) (v : value) : dict :=
  match d with
  | [] => [(k, v)]
  | (k', v') :: d' =>
      if String.eqb k' k then (k', v) :: d' else (k', v') :: dict_set d' k v
  end.

(** [d.update(e)] *)
Definition dict_update (d e : dict) : dict :=
  fold_left (fun acc kv => dict_set acc (fst kv) (snd kv)) e d.

(** [v == s] for a Python value [v] and a [str] [s]: a value that is not
    a [str] is never equal to one. *)
Definition value_is_str (v : value) (s : string) : bool :=
  match v with
  | VStr x => String.eqb x s
  | _ => false
  end.

(** [isinstance(v, str)] *)
Definition isinstance_str (v : value) : bool :=
  match v with
  | VStr _ => true
  | _ => false
  end.

(** ** Exceptions *)

Inductive exn : Type :=
| HTTPException (status_code : Z) (detail : string)
| ExpiredSignatureError (msg : string)
| JWTClaimsError (msg : string)
| JWTError (msg : string)
| TypeError (msg : string)
| AttributeError (msg : string)
| IntegrityError (msg : string)
| OverflowError (msg : string).

(** [str(e)] *)
Definition exn_str (e : exn) : string :=
  match e with
  | HTTPException _ d => d
  | ExpiredSignatureError m | JWTClaimsError m | JWTError m
  | TypeError m | AttributeError m | IntegrityError m | OverflowError m => m
  end.

(** [isinstance(e, JWTError)]: [ExpiredSignatureError] and [JWTClaimsError]
    are subclasses of [JWTError] in jose. *)
Definition is_JWTError (e : exn) : bool :=
  match e with
  | ExpiredSignatureError _ | JWTClaimsError _ | JWTError _ => true
  | _ => false
  end.

Inductive Result (A : Type) : Type :=
| Ok (a : A)
| Raise (e : exn).
Arguments Ok {A} a.
Arguments Raise {A} e.

(** ** Tokens, symbolically *)

(** A key file is identified by the key pair it belongs to: [private.pem]
    holds the private half of a pair and [public.pem] the public half of a
    pair; [gen_keys.py] writes both halves of one freshly generated pair. *)
Definition key : Type := N.

(** The content of a compact JWS.  The signature is symbolic:
    [jws_signer = Some k] says that the signature segment is the one the
    private half of pair [k] produces, under the header's algorithm, for
    exactly this header and payload; [None] stands for any other bytes. *)
Record JWS : Type := {
  jws_alg : string;
  jws_payload : dict;
  jws_signer : option key
}.

(** A Python [str] in a place where a token is expected: either the compact
    serialisation of a [JWS], or some other text (the empty text included). *)
Inductive pystr : Type :=
| Compact (j : JWS)
| Raw (s : string).

(** Truth value of an optional [str]: [None] and the empty text are false. *)
Definition truthy (t : option pystr) : bool :=
  match t with
  | None => false
  | Some (Raw EmptyString) => false
  | Some _ => true
  end.

(** [a or b] on optional texts. *)
Definition py_or (a b : option pystr) : option pystr :=
  if truthy a then a else b.

(** ** The jose library, as far as main.py calls it *)

Module jwt.

(** [int(s)] for a [str]: an optional sign and decimal digits.  ([None] is
    Python's [ValueError].) *)
Definition digit_of (c : Ascii.ascii) : option Z :=
  let n := Z.of_N (Ascii.N_of_ascii c) in
  if (48 <=? n) && (n <=? 57) then Some (n - 48) else None.

Fixpoint digits (acc : Z) (s : string) : option Z :=
  match s with
  | EmptyString => Some acc
  | String c s' =>
      match digit_of c with
      | Some d => digits (10 * acc + d) s'
      | None => None
      end
  end.

Definition int_of_str (s : string) : option Z :=
  match s with
  | EmptyString => None
  | String "-"%char (String _ _ as s') => option_map Z.opp (digits 0 s')
  | String "+"%char (String _ _ as s') => digits 0 s'
  | _ => digits 0 s
  end.

(** [try: int(v) except ValueError: raise JWTClaimsError(msg)] as the
    time-claim validators of jose write it: a [TypeError] is not caught. *)
Definition int_claim (v : value) (msg : string) : Result Z :=
  match v with
  | VInt z => Ok z
  | VBool b => Ok (if b then 1 else 0)
  | VStr s =>
      match int_of_str s with
      | Some z => Ok z
      | None => Raise (JWTClaimsError msg)
      end
  | VNone | VList _ =>
      Raise (TypeError "int() argument must be a string, a bytes-like object or a real number")
  end.

Definition _validate_iat (claims : dict) : Result unit :=
  if dict_contains claims "iat" then
    match int_claim (dict_get claims "iat") "Issued At claim (iat) must be an integer." with
    | Ok _ => Ok tt
    | Raise e => Raise e
    end
  else Ok tt.

Definition _validate_nbf (now : Z) (claims : dict) : Result unit :=
  if dict_contains claims "nbf" then
    match int_claim (dict_get claims "nbf") "Not Before claim (nbf) must be an integer." with
    | Ok nbf =>
        if now <? nbf then Raise (JWTClaimsError "The token is not yet valid (nbf)")
        else Ok tt
    | Raise e => Raise e
    end
  else Ok tt.

Definition _validate_exp (now : Z) (claims : dict) : Result unit :=
  if dict_contains claims "exp" then
    match int_claim (dict_get claims "exp") "Expiration Time claim (exp) must be an integer." with
    | Ok exp =>
        if exp <? now then Raise (ExpiredSignatureError "Signature has expired.")
        else Ok tt
    | Raise e => Raise e
    end
  else Ok tt.

(** The [aud] claim is looked at whenever the token carries one, also
    when the caller passed no [audience]: [None] is in no list of
    strings. *)
Definition _validate_aud (claims : dict) (audience : option string) : Result unit :=
  if dict_contains claims "aud" then
    let audience_claims :=
      match dict_get claims "aud" with
      | VStr s => VList [VStr s]
      | v => v
      end in
    match audience_claims with
    | VList l =>
        if negb (forallb isinstance_str l) then
          Raise (JWTClaimsError "Invalid claim format in token")
        else
          match audience with
          | Some a =>
              if existsb (fun c => value_is_str c a) l then Ok tt
              else Raise (JWTClaimsError "Invalid audience")
          | None => Raise (JWTClaimsError "Invalid audience")
          end
    | _ => Raise (JWTClaimsError "Invalid claim format in token")
    end
  else Ok tt.

Definition _validate_sub (claims : dict) : Result unit :=
  if dict_contains claims "sub" then
    if isinstance_str (dict_get claims "sub") then Ok tt
    else Raise (JWTClaimsError "Subject must be a string.")
  else Ok tt.

Definition _validate_jti (claims : dict) : Result unit :=
  if dict_contains claims "jti" then
    if isinstance_str (dict_get claims "jti") then Ok tt
    else Raise (JWTClaimsError "JWT ID must be a string.")
  else Ok tt.

(** No [access_token] is ever passed by main.py. *)
Definition _validate_at_hash (claims : dict) : Result unit :=
  if dict_contains claims "at_hash" then
    Raise (JWTClaimsError "No access_token provided to compare against at_hash claim.")
  else Ok tt.

Definition andThen (r : Result unit) (k : Result unit) : Result unit :=
  match r with
  | Ok _ => k
  | Raise e => Raise e
  end.

(** The default options of [jwt.decode], no [issuer] and no [subject]
    given, leeway 0. *)
Definition _validate_claims (now : Z) (claims : dict) (audience : option string)
  : Result unit :=
  andThen (_validate_iat claims)
  (andThen (_validate_nbf now claims)
  (andThen (_validate_exp now claims)
  (andThen (_validate_aud claims audience)
  (andThen (_validate_sub claims)
  (andThen (_validate_jti claims)
           (_validate_at_hash claims)))))).

(** [jwt.encode(claims, key, algorithm=algorithm)].  The time claims are
    integers in the model already (jose turns a [datetime] into its
    [timegm]). *)
Definition encode (claims : dict) (k : key) (algorithm : string) : pystr :=
  Compact {| jws_alg := algorithm; jws_payload := claims; jws_signer := Some k |}.

(** [jwt.decode(token, key, algorithms=algorithms[, audience=audience])]
    at clock reading [now].  A text that is no compact JWS is reported
    with the first of the messages jose has for it. *)
Definition decode (now : Z) (token : option pystr) (k : key)
    (algorithms : list string) (audience : option string) : Result dict :=
  match token with
  | None => Raise (AttributeError "'NoneType' object has no attribute 'rsplit'")
  | Some (Raw _) => Raise (JWTError "Not enough segments")
  | Some (Compact j) =>
      if negb (existsb (String.eqb (jws_alg j)) algorithms) then
        Raise (JWTError "The specified alg value is not allowed")
      else
        match jws_signer j with
        | Some k' =>
            if N.eqb k' k then
              match _validate_claims now (jws_payload j) audience with
              | Ok _ => Ok (jws_payload j)
              | Raise e => Raise e
              end
            else Raise (JWTError "Signature verification failed.")
        | None => Raise (JWTError "Signature verification failed.")
        end
  end.

End jwt.

(** ** The tables of models.py *)

Module UserPermission.
Record t : Type := mk {
  id : Z;
  user_id : Z;
  permission : string
}.
End UserPermission.

Module User.
(** [permissions] is the relationship: the rows of [user_permissions]
    that belong to the user. *)
Record t : Type := mk {
  id : Z;
  username : string;
  email : option string;
  hashed_password : string;
  role : option string;
  is_active : bool;
  created_at : Z;
  permissions : list UserPermission.t
}.
End User.

Module Token.
Record t : Type := mk {
  id : Z;
  user_id : Z;
  jti : string;
  token_type : string;
  expires_at : Z;
  revoked : bool;
  created_at : Z;
  meta : option string
}.

(** [rec.revoked = True] *)
Definition set_revoked (r : t) : t :=
  mk (id r) (user_id r) (jti r) (token_type r) (expires_at r) true
     (created_at r) (meta r).
End Token.

(** ** The process state *)

(** The two module-level sets of main.py and the committed rows of the two
    tables. *)
Record World : Type := mkWorld {
  _revoked_jtis : gset string;
  _valid_refresh_jtis : gset string;
  users : list User.t;
  tokens : list Token.t
}.

Definition with_revoked_jtis (f : gset string -> gset string) (w : World) : World :=
  mkWorld (f (_revoked_jtis w)) (_valid_refresh_jtis w) (users w) (tokens w).

Definition with_valid_refresh_jtis (f : gset string -> gset string) (w : World) : World :=
  mkWorld (_revoked_jtis w) (f (_valid_refresh_jtis w)) (users w) (tokens w).

Definition with_tokens (f : list Token.t -> list Token.t) (w : World) : World :=
  mkWorld (_revoked_jtis w) (_valid_refresh_jtis w) (users w) (f (tokens w)).

(** A computation that reads and writes the world and may raise. *)
Definition M (A : Type) : Type := World -> Result A * World.

Definition ret {A : Type} (a : A) : M A := fun w => (Ok a, w).

Definition raise {A : Type} (e : exn) : M A := fun w => (Raise e, w).

Definition bind {A B : Type} (m : M A) (k : A -> M B) : M B :=
  fun w =>
    match m w with
    | (Ok a, w') => k a w'
    | (Raise e, w') => (Raise e, w')
    end.

Definition gets {A : Type} (f : World -> A) : M A := fun w => (Ok (f w), w).

Definition modify (f : World -> World) : M unit := fun w => (Ok tt, f w).

(** A pure call that may raise. *)
Definition lift {A : Type} (r : Result A) : M A := fun w => (r, w).

(** [try: m  except Exception: pass] *)
Definition try_pass (m : M unit) : M unit :=
  fun w =>
    match m w with
    | (Ok _, w') => (Ok tt, w')
    | (Raise _, w') => (Ok tt, w')
    end.

Notation "x <- m ;; k" := (bind m (fun x => k))
  (at level 20, m at level 99, k at level 200, only parsing).

(** [v in s] for one of the two sets of strings: a value that is no [str]
    is in neither, and a list cannot be hashed. *)
Definition set_contains (s : gset string) (v : value) : Result bool :=
  match v with
  | VStr j => Ok (bool_decide (j ∈ s))
  | VList _ => Raise (TypeError "unhashable type: 'list'")
  | _ => Ok false
  end.

(** ** The database session *)

(** Modelled from the spec: [database.py] ([Base], [engine], [get_db]) is
    not among the sources.  The session is the Durable Store of the spec's
    section 6, [insert(record)], [findByJti(tokenId)] and
    [markRevoked(tokenId)], over the rows the [World] holds; [get_db] is
    the handle the endpoints are given. *)
Inductive Session : Type := get_db.

(** [db.add(Token(user_id=.., jti=.., token_type=.., expires_at=..))] and
    [db.commit()]: the row gets the next id, [revoked = False] and the
    current time; the commit fails on a [jti] that is already stored
    (unique) and on a [user_id] that is no user's (foreign key). *)
Definition add_token_commit (now : Z) (user_id : Z) (jti token_type : string)
    (expires_at : Z) : M unit :=
  fun w =>
    if existsb (fun r => String.eqb (Token.jti r) jti) (tokens w) then
      (Raise (IntegrityError "duplicate key value violates unique constraint"), w)
    else if negb (existsb (fun u => Z.eqb (User.id u) user_id) (users w)) then
      (Raise (IntegrityError "violates foreign key constraint"), w)
    else
      (Ok tt,
       with_tokens (fun ts => (ts ++ [Token.mk (1 + Z.of_nat (length ts)) user_id jti
                                        token_type expires_at false now None])%list) w).

(** [db.query(Token).filter(Token.jti == jti).first()] *)
Definition query_token_by_jti (jti : value) : M (option Token.t) :=
  gets (fun w => find (fun r => value_is_str jti (Token.jti r)) (tokens w)).

(** [db.query(User).filter(User.id == user_id).first()] *)
Definition query_user_by_id (user_id : value) : M (option User.t) :=
  gets (fun w =>
          match user_id with
          | VInt n => find (fun u => Z.eqb (User.id u) n) (users w)
          | _ => None
          end).

(** [rec.revoked = True; db.commit()] for a row obtained from a query. *)
Definition revoke_commit (rec : Token.t) : M unit :=
  modify (with_tokens (map (fun r =>
    if Z.eqb (Token.id r) (Token.id rec) then Token.set_revoked r else r))).

(** ** Requests and responses *)

(** What the endpoints read of a request: the cookies, and [bearer], the
    text that line 223 makes of the [Authorization] header by taking the
    header (the empty text when absent), removing the prefix [Bearer ] and
    stripping blanks. *)
Record Request : Type := {
  cookies : list (string * pystr);
  bearer : pystr
}.

(** [request.cookies.get(name)] *)
Definition cookies_get (request : Request) (name : string) : option pystr :=
  option_map snd (find (fun c => String.eqb (fst c) name) (cookies request)).

Inductive Response : Type :=
| RedirectResponse (url : string) (status_code : Z) (delete_cookie : list string)
| JSONResponse (message : string) (access_token refresh_token : pystr)
    (set_cookie : list (string * pystr)).

(** The dictionary both issuing functions return. *)
Record Issued : Type := {
  token : pystr;
  jti : string;
  exp : Z
}.

(** ** Configuration *)

Record Config : Type := {
  PRIVATE_KEY : key;
  PUBLIC_KEY : key;
  ISSUER : string;
  AUDIENCE : string;
  ACCESS_TOKEN_EXP_MIN : Z;
  REFRESH_TOKEN_EXP_DAYS : Z
}.

Definition ALGORITHM : string := "RS256".

(** [a or b] on an optional integer and an integer: [None] and [0] are
    false. *)
Definition int_or (a : option Z) (b : Z) : Z :=
  match a with
  | Some n => if Z.eqb n 0 then b else n
  | None => b
  end.

(** The dates a [datetime] can hold, in seconds since the epoch: from
    0001-01-01 00:00:00 to 9999-12-31 23:59:59. *)
Definition datetime_min : Z := -62135596800.
Definition datetime_max : Z := 253402300799.

(** [datetime.utcnow() + timedelta(seconds=seconds)] at clock reading [now],
    in whole seconds.  [timedelta] holds spans of up to 999999999 days
    (the count of days goes through a C [int] first), and the sum must be a
    date that [datetime] can hold; otherwise Python raises
    [OverflowError]. *)
Definition utcnow_plus (now seconds : Z) : Result Z :=
  let days := seconds / 86400 in
  if (days <? -2147483648) || (2147483647 <? days) then
    Raise (OverflowError "Python int too large to convert to C int")
  else if (days <? -999999999) || (999999999 <? days) then
    Raise (OverflowError ("days=" +:+ pretty days +:+ "; must have magnitude <= 999999999"))
  else if (now + seconds <? datetime_min) || (datetime_max <? now + seconds) then
    Raise (OverflowError "date value out of range")
  else Ok (now + seconds).

(** [f"user_{id}"] *)
Definition user_sub (id : Z) : string := "user_" +:+ pretty id.

Section Main.

Variable cfg : Config.

(** *** JWT creation *)

(** [create_access_token_for_user] with its keyword-only parameters
    [user], [db], [extra=None] and [expires_minutes=None].  [user] and
    [db] have no default: they are required keyword-only
    parameters: [None] stands for a call that does not pass the argument,
    which Python refuses before the body runs.  [uuid] is the text
    [str(uuid4())] yields in this call and [now] the clock reading. *)
Definition create_access_token_for_user (uuid : string) (now : Z)
    (user : option User.t) (db : option Session) (extra : option dict)
    (expires_minutes : option Z) : M Issued :=
  match user, db with
  | None, None =>
      raise (TypeError "create_access_token_for_user() missing 2 required keyword-only arguments: 'user' and 'db'")
  | None, Some _ =>
      raise (TypeError "create_access_token_for_user() missing 1 required keyword-only argument: 'user'")
  | Some _, None =>
      raise (TypeError "create_access_token_for_user() missing 1 required keyword-only argument: 'db'")
  | Some user, Some db =>
      let iat := now in
      expires <-
        lift (utcnow_plus now (60 * int_or expires_minutes (ACCESS_TOKEN_EXP_MIN cfg))) ;;
      let jti := uuid in
      let payload : dict :=
        [ ("iss", VStr (ISSUER cfg));
          ("sub", VStr (user_sub (User.id user)));
          ("aud", VStr (AUDIENCE cfg));
          ("iat", VInt iat);
          ("nbf", VInt iat);
          ("exp", VInt expires);
          ("jti", VStr jti);
          ("type", VStr "access");
          ("user_id", VInt (User.id user));
          ("email", match User.email user with Some e => VStr e | None => VNone end);
          ("role", match User.role user with Some r => VStr r | None => VNone end);
          ("name", VStr (User.username user));
          ("permissions",
            match map (fun perm => VStr (UserPermission.permission perm))
                      (User.permissions user) with
            | [] => VList [VStr "read_post"]
            | l => VList l
            end) ] in
      let payload :=
        match extra with
        | None | Some [] => payload
        | Some e => dict_update payload e
        end in
      let token := jwt.encode payload (PRIVATE_KEY cfg) ALGORITHM in
      _ <- add_token_commit now (User.id user) jti "access" expires ;;
      ret {| token := token; jti := jti; exp := expires |}
  end.

(** [create_refresh_token_for_user], keyword-only parameters [user], [db]
    and [expires_days=None]. *)
Definition create_refresh_token_for_user (uuid : string) (now : Z)
    (user : option User.t) (db : option Session) (expires_days : option Z)
    : M Issued :=
  match user, db with
  | None, None =>
      raise (TypeError "create_refresh_token_for_user() missing 2 required keyword-only arguments: 'user' and 'db'")
  | None, Some _ =>
      raise (TypeError "create_refresh_token_for_user() missing 1 required keyword-only argument: 'user'")
  | Some _, None =>
      raise (TypeError "create_refresh_token_for_user() missing 1 required keyword-only argument: 'db'")
  | Some user, Some db =>
      let iat := now in
      expires <-
        lift (utcnow_plus now (86400 * int_or expires_days (REFRESH_TOKEN_EXP_DAYS cfg))) ;;
      let jti := uuid in
      let payload : dict :=
        [ ("iss", VStr (ISSUER cfg));
          ("sub", VStr (user_sub (User.id user)));
          ("aud", VStr (AUDIENCE cfg));
          ("iat", VInt iat);
          ("nbf", VInt iat);
          ("exp", VInt expires);
          ("jti", VStr jti);
          ("type", VStr "refresh");
          ("user_id", VInt (User.id user)) ] in
      let token := jwt.encode payload (PRIVATE_KEY cfg) ALGORITHM in
      _ <- add_token_commit now (User.id user) jti "refresh" expires ;;
      _ <- modify (with_valid_refresh_jtis (fun s => {[jti]} ∪ s)) ;;
      ret {| token := token; jti := jti; exp := expires |}
  end.

(** *** JWT verification *)

(** [verify_jwt_token_strict(token, check_audience=True,
    check_issuer=True)] *)
Definition verify_jwt_token_strict (now : Z) (token : option pystr)
    (check_audience check_issuer : bool) : M dict :=
  if negb (truthy token) then raise (HTTPException 401 "Missing token") else
  payload <-
    match
      (if check_audience
       then jwt.decode now token (PUBLIC_KEY cfg) [ALGORITHM] (Some (AUDIENCE cfg))
       else jwt.decode now token (PUBLIC_KEY cfg) [ALGORITHM] None)
    with
    | Ok payload => ret payload
    | Raise (ExpiredSignatureError _) => raise (HTTPException 401 "Token expired")
    | Raise e =>
        if is_JWTError e
        then raise (HTTPException 401 ("Token invalid: " +:+ exn_str e))
        else raise e
    end ;;
  if check_issuer && negb (value_is_str (dict_get payload "iss") (ISSUER cfg)) then
    raise (HTTPException 401 "Invalid token issuer")
  else
  let jti := dict_get payload "jti" in
  revoked <- gets _revoked_jtis ;;
  is_revoked <- lift (set_contains revoked jti) ;;
  if (is_revoked : bool) then raise (HTTPException 401 "Token revoked") else
  ret payload.

(** *** Refresh token endpoint *)

(** [_valid_refresh_jtis.discard(v)]: removing what is not in the set
    changes nothing, and only a [str] is ever in it. *)
Definition discard_valid_refresh (v : value) : M unit :=
  match v with
  | VStr j => modify (with_valid_refresh_jtis (fun s => s ∖ {[j]}))
  | _ => ret tt
  end.

(** [_revoked_jtis.add(v)], reached in [refresh_token] only with a [v]
    found in [_valid_refresh_jtis], a [str]. *)
Definition add_revoked (v : value) : M unit :=
  match v with
  | VStr j => modify (with_revoked_jtis (fun s => {[j]} ∪ s))
  | _ => ret tt
  end.

(** [POST /token/refresh].  [uuid_access] and [uuid_refresh] are the
    texts the two issuing calls would draw from [uuid4()]. *)
Definition refresh_token (uuid_access uuid_refresh : string) (now : Z)
    (request : Request) (db : Session) : M Response :=
  let refresh_token :=
    py_or (cookies_get request "refresh_token") (Some (bearer request)) in
  if negb (truthy refresh_token) then
    raise (HTTPException 401 "Missing refresh token")
  else
  payload <- verify_jwt_token_strict now refresh_token true true ;;
  if negb (value_is_str (dict_get payload "type") "refresh") then
    raise (HTTPException 401 "Not a refresh token")
  else
  let old_jti := dict_get payload "jti" in
  valid <- gets _valid_refresh_jtis ;;
  is_valid <- lift (set_contains valid old_jti) ;;
  if negb is_valid then
    raise (HTTPException 401 "Refresh token invalid or revoked")
  else
  (* Revoke old refresh token *)
  _ <- discard_valid_refresh old_jti ;;
  _ <- add_revoked old_jti ;;
  let user_id := dict_get payload "user_id" in
  user <- query_user_by_id user_id ;;
  match user with
  | None => raise (HTTPException 401 "User not found")
  | Some user =>
      new_access <-
        create_access_token_for_user uuid_access now (Some user) None None None ;;
      new_refresh <-
        create_refresh_token_for_user uuid_refresh now (Some user) None None ;;
      ret (JSONResponse "Token refreshed" (token new_access) (token new_refresh)
             [("access_token", token new_access);
              ("refresh_token", token new_refresh)])
  end.

(** *** Logout endpoint *)

(** [POST /logout] *)
Definition logout (now : Z) (request : Request) (db : Session) : M Response :=
  let refresh_token := cookies_get request "refresh_token" in
  let access_token := cookies_get request "access_token" in
  _ <- (if truthy refresh_token then
          try_pass
            (ref_payload <-
               lift (jwt.decode now refresh_token (PUBLIC_KEY cfg) [ALGORITHM]
                       (Some (AUDIENCE cfg))) ;;
             access_payload <-
               lift (jwt.decode now access_token (PUBLIC_KEY cfg) [ALGORITHM]
                       (Some (AUDIENCE cfg))) ;;
             let ref_jti := dict_get ref_payload "jti" in
             let access_jti := dict_get access_payload "jti" in
             db_token_ref <- query_token_by_jti ref_jti ;;
             db_token_access <- query_token_by_jti access_jti ;;
             _ <- match db_token_ref with
                  | Some r => revoke_commit r
                  | None => ret tt
                  end ;;
             match db_token_access with
             | Some r => revoke_commit r
             | None => ret tt
             end)
        else ret tt) ;;
  ret (RedirectResponse "/" 302 ["access_token"; "refresh_token"]).

(** *** Admin revocation endpoint *)

(** [POST /admin/revoke] with form field [token_jti]. *)
Definition admin_revoke (now : Z) (token_jti : string) (request : Request)
    (db : Session) : M Response :=
  let cookie := cookies_get request "access_token" in
  if negb (truthy cookie) then raise (HTTPException 401 "Not authenticated") else
  payload <- verify_jwt_token_strict now cookie true true ;;
  if negb (value_is_str (dict_get payload "role") "admin") then
    raise (HTTPException 403 "Admins only")
  else
  db_token <- query_token_by_jti (VStr token_jti) ;;
  match db_token with
  | None => raise (HTTPException 404 "Token not found")
  | Some r =>
      _ <- revoke_commit r ;;
      ret (RedirectResponse "/admin/tokens" 302 [])
  end.

End Main.

(** ** Rejections by name *)

(** The rejections of the verifier and of the rotation, as the exceptions
    main.py raises for them. *)
Definition MissingToken : exn := HTTPException 401 "Missing token".
Definition Expired : exn := HTTPException 401 "Token expired".
Definition InvalidSignature : exn :=
  HTTPException 401 "Token invalid: Signature verification failed.".
Definition InvalidAlgorithm : exn :=
  HTTPException 401 "Token invalid: The specified alg value is not allowed".
Definition InvalidAudience : exn := HTTPException 401 "Token invalid: Invalid audience".
Definition InvalidIssuer : exn := HTTPException 401 "Invalid token issuer".
Definition Revoked : exn := HTTPException 401 "Token revoked".
Definition NotARefreshToken : exn := HTTPException 401 "Not a refresh token".
Definition InvalidOrRevoked : exn := HTTPException 401 "Refresh token invalid or revoked".
Definition UserNotFound : exn := HTTPException 401 "User not found".
Definition MissingDbArgument : exn :=
  TypeError "create_access_token_for_user() missing 1 required keyword-only argument: 'db'".

(** ** A concrete deployment, for running the model *)

(** The defaults of main.py, with the two key files of one pair. *)
Definition default_cfg : Config := {|
  PRIVATE_KEY := 1%N;
  PUBLIC_KEY := 1%N;
  ISSUER := "myblogapp.com";
  AUDIENCE := "myblogapp_users";
  ACCESS_TOKEN_EXP_MIN := 15;
  REFRESH_TOKEN_EXP_DAYS := 30
|}.

(** A user as [register_user] leaves it, without permission rows. *)
Definition alice : User.t :=
  User.mk 1 "alice" None "$argon2id$" (Some "user") true 0 [].

Definition root_admin : User.t :=
  User.mk 2 "root" None "$argon2id$" (Some "admin") true 0
    [UserPermission.mk 1 2 "create_post"; UserPermission.mk 2 2 "edit_post"].

Definition world0 : World := mkWorld ∅ ∅ [alice; root_admin] [].

(** What [login_user] does after the password check, at time 1000: an
    access token and a refresh token for [alice]. *)
Definition login_alice : M (Issued * Issued) :=
  access <- create_access_token_for_user default_cfg "jti-A" 1000 (Some alice)
              (Some get_db) None None ;;
  refresh <- create_refresh_token_for_user default_cfg "jti-R" 1000 (Some alice)
               (Some get_db) None ;;
  ret (access, refresh).

Definition world_login : World := snd (login_alice world0).

Definition token_A : pystr :=
  match fst (login_alice world0) with
  | Ok (a, _) => token a
  | Raise _ => Raw "no token"
  end.

Definition token_R : pystr :=
  match fst (login_alice world0) with
  | Ok (_, r) => token r
  | Raise _ => Raw "no token"
  end.

Definition request_R : Request :=
  {| cookies := [("access_token", token_A); ("refresh_token", token_R)];
     bearer := Raw EmptyString |}.

(** ** Subsequent states *)

(** One call into the core, with everything the environment supplies to
    it. *)
Inductive Call : Type :=
| CallCreateAccess (uuid : string) (now : Z) (user : option User.t)
    (db : option Session) (extra : option dict) (expires_minutes : option Z)
| CallCreateRefresh (uuid : string) (now : Z) (user : option User.t)
    (db : option Session) (expires_days : option Z)
| CallVerify (now : Z) (token : option pystr) (check_audience check_issuer : bool)
| CallRefresh (uuid_access uuid_refresh : string) (now : Z) (request : Request)
| CallLogout (now : Z) (request : Request)
| CallAdminRevoke (now : Z) (token_jti : string) (request : Request).

(** The world a call leaves behind, whatever it returns or raises. *)
Definition after (cfg : Config) (c : Call) (w : World) : World :=
  match c with
  | CallCreateAccess uuid now user db extra expires_minutes =>
      snd (create_access_token_for_user cfg uuid now user db extra expires_minutes w)
  | CallCreateRefresh uuid now user db expires_days =>
      snd (create_refresh_token_for_user cfg uuid now user db expires_days w)
  | CallVerify now token check_audience check_issuer =>
      snd (verify_jwt_token_strict cfg now token check_audience check_issuer w)
  | CallRefresh uuid_access uuid_refresh now request =>
      snd (refresh_token cfg uuid_access uuid_refresh now request get_db w)
  | CallLogout now request => snd (logout cfg now request get_db w)
  | CallAdminRevoke now token_jti request =>
      snd (admin_revoke cfg now token_jti request get_db w)
  end.

(** The world after a sequence of calls, first call first. *)
Definition after_all (cfg : Config) (cs : list Call) (w : World) : World :=
  fold_left (fun w' c => after cfg c w') cs w.

(** ** Reading aids for the statements *)

(** The [audience] argument [verify_jwt_token_strict] hands to
    [jwt.decode]: the configured one, or none at all. *)
Definition audience_arg (cfg : Config) (check_audience : bool) : option string :=
  if check_audience then Some (AUDIENCE cfg) else None.

(** The header names the one allowed algorithm and the signature is the
    one the configured public key accepts. *)
Definition well_signed (cfg : Config) (j : JWS) : Prop :=
  jws_alg j = ALGORITHM /\ jws_signer j = Some (PUBLIC_KEY cfg).

(** How [verify_jwt_token_strict] reports what [jwt.decode] raised. *)
Definition reported (e : exn) : exn :=
  match e with
  | ExpiredSignatureError _ => Expired
  | JWTClaimsError m | JWTError m => HTTPException 401 ("Token invalid: " +:+ m)
  | e => e
  end.

(** The text [refresh_token] takes for the refresh token: the cookie, or
    else what the [Authorization] header holds. *)
Definition presented (request : Request) : option pystr :=
  py_or (cookies_get request "refresh_token") (Some (bearer request)).

(** [db.query(User).filter(User.id == user_id).first()] on the rows of a
    world. *)
Definition user_of (w : World) (user_id : value) : option User.t :=
  match user_id with
  | VInt n => find (fun u => Z.eqb (User.id u) n) (users w)
  | _ => None
  end.

(** [db.query(Token).filter(Token.jti == jti).first()] on the rows of a
    world. *)
Definition record_of (w : World) (jti : string) : option Token.t :=
  find (fun r => String.eqb jti (Token.jti r)) (tokens w).

(** The claims inside a token text (none for a text that is no token). *)
Definition claims_of (t : pystr) : dict :=
  match t with
  | Compact j => jws_payload j
  | Raw _ => []
  end.

(** The world after the first rotation of [alice]'s refresh token, at time
    1001. *)
Definition world_rotated : World :=
  snd (refresh_token default_cfg "jti-A2" "jti-R2" 1001 request_R get_db world_login).

#[global] Instance exn_eq_dec : EqDecision exn.
Proof. solve_decision. Defined.

(** A refresh token of [alice] seen long after its thirty days. *)
Definition long_after : Z := 3000000.

(** An administrator's access token, issued after [alice]'s login, and a
    request that carries it. *)
Definition admin_login : M Issued :=
  create_access_token_for_user default_cfg "jti-ADM" 1000 (Some root_admin)
    (Some get_db) None None.

Definition world_admin : World := snd (admin_login world_login).

Definition token_ADM : pystr :=
  match fst (admin_login world_login) with
  | Ok a => token a
  | Raise _ => Raw "no token"
  end.

Definition request_admin : Request :=
  {| cookies := [("access_token", token_ADM)]; bearer := Raw EmptyString |}.

(** The world after the administrator has revoked [alice]'s refresh token
    once. *)
Definition world_revoked_once : World :=
  snd (admin_revoke default_cfg 1001 "jti-R" request_admin get_db world_admin).

(** A logout request whose access cookie is gone. *)
Definition request_refresh_only : Request :=
  {| cookies := [("refresh_token", token_R)]; bearer := Raw EmptyString |}.

(** jose raises its own exceptions and Python's, never an [HTTPException]. *)
Definition not_http (e : exn) : Prop :=
  match e with
  | HTTPException _ _ => False
  | _ => True
  end.

(** ** The other endpoints *)

(** Truth value of a Python value. *)
Definition value_truthy (v : value) : bool :=
  match v with
  | VNone => false
  | VBool b => b
  | VInt z => negb (Z.eqb z 0)
  | VStr s => negb (String.eqb s EmptyString)
  | VList l => match l with [] => false | _ => true end
  end.

(** What [protected] hands to the template as [username]: a claim of the
    token as it is, or the text [user_] followed by [str] of the [user_id]
    claim. *)
Inductive Shown : Type :=
| ClaimValue (v : value)
| UserUnderscore (user_id : value).

(** The [Authorization] header as [protected] reads it: absent, a text
    that does not start with [Bearer ], or a text that does, of which
    [split(" ")[1]] is the word after the first blank. *)
Inductive Authorization : Type :=
| NoHeader
| OtherScheme
| Bearer (word : pystr).

(** The responses of [login_user], [register_user] and [protected]. *)
Inductive Page : Type :=
| PageRedirect (url : string) (status_code : Z) (set_cookie : list (string * pystr))
| TemplateResponse (name : string) (username : Shown).

(** [http_exception_handler]: both branches answer alike. *)
Definition http_exception_handler (status_code : Z) : Response :=
  if existsb (Z.eqb status_code) [404; 405]
  then RedirectResponse "/" 302 []
  else RedirectResponse "/" 302 [].

(** [global_exception_handler], the handler registered for [Exception]. *)
Definition global_exception_handler (e : exn) : Response :=
  match e with
  | HTTPException status_code _ =>
      if existsb (Z.eqb status_code) [404; 405]
      then RedirectResponse "/" 302 []
      else RedirectResponse "/" 302 []
  | _ => RedirectResponse "/" 302 []
  end.

(** What the client of an endpoint receives: the endpoint's response, or
    the response of the handler registered for what the endpoint raised
    ([HTTPException] is handled by [http_exception_handler], everything
    else by [global_exception_handler]). *)
Definition respond (r : Result Response) : Response :=
  match r with
  | Ok response => response
  | Raise (HTTPException status_code _) => http_exception_handler status_code
  | Raise e => global_exception_handler e
  end.

Section Accounts.

Variable cfg : Config.

(** The two password functions of main.py hand over to passlib's
    [CryptContext], which is taken as given. *)
Variable get_password_hash : string -> string.
Variable verify_password : string -> string -> bool.

(** [db.query(User).filter(User.username == username).first()] *)
Definition query_user_by_username (username : string) : M (option User.t) :=
  gets (fun w => find (fun u => String.eqb (User.username u) username) (users w)).

(** [db.add(User(username=.., hashed_password=..)); db.commit()] and the two
    [UserPermission] rows with their commit: the user gets the next id, no
    email, the column defaults [role = "user"] and [is_active = True], and
    the two permission rows get the next two ids of their table. *)
Definition add_user_commit (now : Z) (username hashed_password : string) : M unit :=
  modify (fun w =>
    let id := 1 + Z.of_nat (length (users w)) in
    let n := Z.of_nat (length (concat (map User.permissions (users w)))) in
    mkWorld (_revoked_jtis w) (_valid_refresh_jtis w)
      (users w ++ [User.mk id username None hashed_password (Some "user") true now
                     [UserPermission.mk (n + 1) id "create_post";
                      UserPermission.mk (n + 2) id "edit_post"]])%list
      (tokens w)).

(** [POST /register] *)
Definition register_user (now : Z) (username password : string) (db : Session)
    : M Page :=
  existing <- query_user_by_username username ;;
  match existing with
  | Some _ => raise (HTTPException 400 "Username already exists")
  | None =>
      _ <- add_user_commit now username (get_password_hash password) ;;
      ret (PageRedirect "/" 302 [])
  end.

(** [POST /login] *)
Definition login_user (uuid_access uuid_refresh : string) (now : Z)
    (username password : string) (db : Session) : M Page :=
  user <- query_user_by_username username ;;
  match user with
  | None => raise (HTTPException 401 "Invalid credentials")
  | Some user =>
      if negb (verify_password password (User.hashed_password user)) then
        raise (HTTPException 401 "Invalid credentials")
      else
      access <-
        create_access_token_for_user cfg uuid_access now (Some user) (Some db)
          None None ;;
      refresh <-
        create_refresh_token_for_user cfg uuid_refresh now (Some user) (Some db)
          None ;;
      ret (PageRedirect "/protected" 302
             [("access_token", token access); ("refresh_token", token refresh)])
  end.

(** [GET /protected] *)
Definition protected (now : Z) (request : Request) (authorization : Authorization)
    : M Page :=
  let token :=
    match authorization with
    | Bearer word => Some word
    | _ => cookies_get request "access_token"
    end in
  if negb (truthy token) then ret (PageRedirect "/" 302 []) else
  payload <- verify_jwt_token_strict cfg now token true true ;;
  let username :=
    if value_truthy (dict_get payload "name") then ClaimValue (dict_get payload "name")
    else if value_truthy (dict_get payload "email")
         then ClaimValue (dict_get payload "email")
         else UserUnderscore (dict_get payload "user_id") in
  ret (TemplateResponse "protected.html" username).

End Accounts.

(** ** Everything a client can call *)

Inductive Op : Type :=
| OpCore (c : Call)
| OpRegister (now : Z) (username password : string)
| OpLogin (uuid_access uuid_refresh : string) (now : Z) (username password : string)
| OpProtected (now : Z) (request : Request) (authorization : Authorization).

Definition after_op (cfg : Config) (get_password_hash : string -> string)
    (verify_password : string -> string -> bool) (o : Op) (w : World) : World :=
  match o with
  | OpCore c => after cfg c w
  | OpRegister now username password =>
      snd (register_user get_password_hash now username password get_db w)
  | OpLogin uuid_access uuid_refresh now username password =>
      snd (login_user cfg verify_password uuid_access uuid_refresh now username
             password get_db w)
  | OpProtected now request authorization =>
      snd (protected cfg now request authorization w)
  end.

Definition after_ops (cfg : Config) (get_password_hash : string -> string)
    (verify_password : string -> string -> bool) (os : list Op) (w : World) : World :=
  fold_left (fun w' o => after_op cfg get_password_hash verify_password o w') os w.

(** ** What a call can do to the world *)

(** Two rows that differ at most in that the second is revoked. *)
Definition row_le (r r' : Token.t) : Prop :=
  Token.id r' = Token.id r /\ Token.user_id r' = Token.user_id r /\
  Token.jti r' = Token.jti r /\ Token.token_type r' = Token.token_type r /\
  Token.expires_at r' = Token.expires_at r /\
  Token.created_at r' = Token.created_at r /\ Token.meta r' = Token.meta r /\
  (Token.revoked r = true -> Token.revoked r' = true).

(** The elementary changes: a token row appended (for a refresh token, its
    id entered into [_valid_refresh_jtis]), an id moved from
    [_valid_refresh_jtis] to [_revoked_jtis], rows marked revoked, a user
    appended. *)
Inductive effect (w : World) : World -> Prop :=
| effect_issue_access user_id jti expires_at now :
    existsb (fun r => String.eqb (Token.jti r) jti) (tokens w) = false ->
    effect w
      (with_tokens (fun ts => (ts ++ [Token.mk (1 + Z.of_nat (length ts)) user_id jti
                                        "access" expires_at false now None])%list) w)
| effect_issue_refresh user_id jti expires_at now :
    existsb (fun r => String.eqb (Token.jti r) jti) (tokens w) = false ->
    effect w
      (with_valid_refresh_jtis (fun s => {[jti]} ∪ s)
         (with_tokens (fun ts => (ts ++ [Token.mk (1 + Z.of_nat (length ts)) user_id jti
                                           "refresh" expires_at false now None])%list) w))
| effect_retire j :
    j ∈ _valid_refresh_jtis w ->
    effect w
      (mkWorld ({[j]} ∪ _revoked_jtis w) (_valid_refresh_jtis w ∖ {[j]})
               (users w) (tokens w))
| effect_mark id :
    effect w
      (with_tokens (map (fun r => if Z.eqb (Token.id r) id
                                  then Token.set_revoked r else r)) w)
| effect_register u :
    find (fun x => String.eqb (User.username x) (User.username u)) (users w) = None ->
    User.id u = 1 + Z.of_nat (length (users w)) ->
    effect w
      (mkWorld (_revoked_jtis w) (_valid_refresh_jtis w) (users w ++ [u])%list
               (tokens w)).

(** The worlds the process can be in: those that keep the rows numbered in
    order, the ids of the rows different, every id of the two sets the id
    of a stored refresh token, and the two sets apart. *)
Record consistent (w : World) : Prop := {
  ids_in_order :
    forall i r, tokens w !! i = Some r -> Token.id r = 1 + Z.of_nat i;
  jtis_unique : NoDup (map Token.jti (tokens w));
  index_in_store :
    forall j, j ∈ _valid_refresh_jtis w ∪ _revoked_jtis w ->
      exists r, r ∈ tokens w /\ Token.jti r = j /\ Token.token_type r = "refresh";
  index_apart : _valid_refresh_jtis w ## _revoked_jtis w
}.

(** The accounts are in order: no two users share a username, and the
    users are numbered as they were added. *)
Record accounts_in_order (w : World) : Prop := {
  usernames_unique : NoDup (map User.username (users w));
  user_ids_in_order :
    forall i u, users w !! i = Some u -> User.id u = 1 + Z.of_nat i
}.

(** The world of a process that has just started on a database with users
    and no tokens. *)
Definition started (us : list User.t) : World := mkWorld ∅ ∅ us [].

(** A toy password scheme for running the model. *)
Definition toy_hash (password : string) : string := "$toy$" +:+ password.
Definition toy_verify (plain hashed : string) : bool :=
  String.eqb (toy_hash plain) hashed.

(** [alice] logs in and then presents her refresh token for rotation, as
    a sequence of calls. *)
Definition alice_session : list Op :=
  [OpCore (CallCreateAccess "jti-A" 1000 (Some alice) (Some get_db) None None);
   OpCore (CallCreateRefresh "jti-R" 1000 (Some alice) (Some get_db) None);
   OpCore (CallRefresh "jti-A2" "jti-R2" 1001 request_R)].

(** The claims [create_access_token_for_user] builds when it is given no
    overrides, and the claims [create_refresh_token_for_user] builds. *)
Definition access_claims (cfg : Config) (uuid : string) (now : Z) (user : User.t)
    (expires_minutes : option Z) : dict :=
  [ ("iss", VStr (ISSUER cfg));
    ("sub", VStr (user_sub (User.id user)));
    ("aud", VStr (AUDIENCE cfg));
    ("iat", VInt now);
    ("nbf", VInt now);
    ("exp", VInt (now + 60 * int_or expires_minutes (ACCESS_TOKEN_EXP_MIN cfg)));
    ("jti", VStr uuid);
    ("type", VStr "access");
    ("user_id", VInt (User.id user));
    ("email", match User.email user with Some e => VStr e | None => VNone end);
    ("role", match User.role user with Some r => VStr r | None => VNone end);
    ("name", VStr (User.username user));
    ("permissions",
      match map (fun perm => VStr (UserPermission.permission perm))
                (User.permissions user) with
      | [] => VList [VStr "read_post"]
      | l => VList l
      end) ].

Definition refresh_claims (cfg : Config) (uuid : string) (now : Z) (user : User.t)
    (expires_days : option Z) : dict :=
  [ ("iss", VStr (ISSUER cfg));
    ("sub", VStr (user_sub (User.id user)));
    ("aud", VStr (AUDIENCE cfg));
    ("iat", VInt now);
    ("nbf", VInt now);
    ("exp", VInt (now + 86400 * int_or expires_days (REFRESH_TOKEN_EXP_DAYS cfg)));
    ("jti", VStr uuid);
    ("type", VStr "refresh");
    ("user_id", VInt (User.id user)) ].

(** The process after a restart: the two module-level sets are empty
    again, the database is what it was. *)
Definition restarted (w : World) : World := mkWorld ∅ ∅ (users w) (tokens w).

(** * Properties *)

(** ** The monad *)

Ltac unfold_M :=
  unfold bind, ret, raise, gets, modify, lift, try_pass in *.

(** ** Dates *)

(** A lifetime that leads from one date a [datetime] can hold to another
    is one [timedelta] can hold, and the sum is that date. *)
Lemma utcnow_plus_fits now seconds :
  datetime_min <= now <= datetime_max ->
  datetime_min <= now + seconds <= datetime_max ->
  utcnow_plus now seconds = Ok (now + seconds).
Proof.
  unfold utcnow_plus, datetime_min, datetime_max. intros Hn Hs.
  assert (Hlo : -3652060 <= seconds / 86400) by (apply Z.div_le_lower_bound; lia).
  assert (Hhi : seconds / 86400 <= 3652060) by (apply Z.div_le_upper_bound; lia).
  cbv zeta.
  repeat match goal with
         | |- context [Z.ltb ?a ?b] => destruct (Z.ltb_spec a b); [lia|]
         end.
  reflexivity.
Qed.

(** Past the last date there is no result. *)
Lemma utcnow_plus_overflow now seconds :
  datetime_max < now + seconds ->
  exists msg, utcnow_plus now seconds = Raise (OverflowError msg).
Proof.
  intros H. unfold utcnow_plus. cbv zeta.
  destruct (_ || _); [eauto|]. destruct (_ || _); [eauto|].
  destruct (Z.ltb_spec (now + seconds) datetime_min);
    destruct (Z.ltb_spec datetime_max (now + seconds)); cbn [orb]; eauto; lia.
Qed.

(** What [utcnow_plus] returns is the sum. *)
Lemma utcnow_plus_Ok now seconds t :
  utcnow_plus now seconds = Ok t -> t = now + seconds.
Proof.
  unfold utcnow_plus. cbv zeta. repeat case_match; congruence.
Qed.

(** ** The verifier *)

Lemma verify_world cfg now token ca ci w :
  snd (verify_jwt_token_strict cfg now token ca ci w) = w.
Proof.
  unfold verify_jwt_token_strict. unfold_M.
  repeat case_match; simplify_eq/=; reflexivity.
Qed.

Lemma verify_missing cfg now token ca ci w :
  truthy token = false ->
  verify_jwt_token_strict cfg now token ca ci w = (Raise MissingToken, w).
Proof.
  intros H. unfold verify_jwt_token_strict. rewrite H. reflexivity.
Qed.

Lemma verify_decode_raise cfg now token ca ci w e :
  truthy token = true ->
  jwt.decode now token (PUBLIC_KEY cfg) [ALGORITHM] (audience_arg cfg ca) = Raise e ->
  verify_jwt_token_strict cfg now token ca ci w = (Raise (reported e), w).
Proof.
  intros Ht Hd. unfold verify_jwt_token_strict, audience_arg in *. rewrite Ht.
  unfold_M. destruct ca; cbn [negb]; rewrite Hd; destruct e; reflexivity.
Qed.

Lemma verify_decode_ok cfg now token ca ci w payload :
  jwt.decode now token (PUBLIC_KEY cfg) [ALGORITHM] (audience_arg cfg ca) = Ok payload ->
  verify_jwt_token_strict cfg now token ca ci w =
    (if ci && negb (value_is_str (dict_get payload "iss") (ISSUER cfg))
     then Raise InvalidIssuer
     else match set_contains (_revoked_jtis w) (dict_get payload "jti") with
          | Ok true => Raise Revoked
          | Ok false => Ok payload
          | Raise e => Raise e
          end, w).
Proof.
  intros Hd.
  assert (Ht : truthy token = true).
  { destruct token as [[j|[|c r]]|]; cbn in *; congruence. }
  unfold verify_jwt_token_strict, audience_arg in *. rewrite Ht.
  unfold_M. destruct ca; cbn [negb]; rewrite Hd;
    repeat case_match; simplify_eq/=; reflexivity.
Qed.

(** ** What a decoded token is known to satisfy *)

Lemma dict_get_absent d k : dict_contains d k = false -> dict_get d k = VNone.
Proof.
  induction d as [|[k' v] d IH]; cbn; [reflexivity|].
  destruct (String.eqb k' k); [discriminate|exact IH].
Qed.

Lemma andThen_Ok r k : jwt.andThen r k = Ok tt -> r = Ok tt /\ k = Ok tt.
Proof. destruct r as [[]|e]; cbn; [tauto|discriminate]. Qed.

Lemma validate_claims_Ok now claims audience :
  jwt._validate_claims now claims audience = Ok tt <->
  jwt._validate_iat claims = Ok tt /\ jwt._validate_nbf now claims = Ok tt /\
  jwt._validate_exp now claims = Ok tt /\ jwt._validate_aud claims audience = Ok tt /\
  jwt._validate_sub claims = Ok tt /\ jwt._validate_jti claims = Ok tt /\
  jwt._validate_at_hash claims = Ok tt.
Proof.
  unfold jwt._validate_claims. split.
  - intros H. repeat (apply andThen_Ok in H; destruct H as [? H]). tauto.
  - intros (-> & -> & -> & -> & -> & -> & ->). reflexivity.
Qed.

Lemma decode_Ok_inv now token k algorithms audience payload :
  jwt.decode now token k algorithms audience = Ok payload ->
  exists j, token = Some (Compact j) /\ jws_payload j = payload /\
            existsb (String.eqb (jws_alg j)) algorithms = true /\
            jws_signer j = Some k /\
            jwt._validate_claims now payload audience = Ok tt.
Proof.
  unfold jwt.decode. intros H.
  destruct token as [[j|s]|]; try discriminate.
  destruct (existsb _ _) eqn:Halg; cbn [negb] in H; [|discriminate].
  destruct (jws_signer j) as [k'|] eqn:Hs; [|discriminate].
  destruct (N.eqb_spec k' k) as [->|]; [|discriminate].
  destruct (jwt._validate_claims _ _ _) as [[]|] eqn:Hv; [|discriminate].
  exists j. injection H as <-. auto.
Qed.

Lemma decode_well_signed cfg now j audience :
  well_signed cfg j ->
  jwt.decode now (Some (Compact j)) (PUBLIC_KEY cfg) [ALGORITHM] audience =
    match jwt._validate_claims now (jws_payload j) audience with
    | Ok _ => Ok (jws_payload j)
    | Raise e => Raise e
    end.
Proof.
  intros [Ha Hs]. unfold jwt.decode. rewrite Ha, Hs, N.eqb_refl. reflexivity.
Qed.

Lemma decode_badly_signed cfg now j audience :
  ~ well_signed cfg j ->
  jwt.decode now (Some (Compact j)) (PUBLIC_KEY cfg) [ALGORITHM] audience =
    Raise (JWTError "The specified alg value is not allowed") \/
  jwt.decode now (Some (Compact j)) (PUBLIC_KEY cfg) [ALGORITHM] audience =
    Raise (JWTError "Signature verification failed.").
Proof.
  intros Hn. unfold jwt.decode. cbn [existsb]. rewrite orb_false_r.
  destruct (String.eqb_spec (jws_alg j) ALGORITHM) as [Ha|Ha]; cbn [negb]; [|auto].
  right. destruct (jws_signer j) as [k'|] eqn:Hs; [|reflexivity].
  destruct (N.eqb_spec k' (PUBLIC_KEY cfg)) as [->|]; [|reflexivity].
  exfalso. apply Hn. split; assumption.
Qed.

(** After [jwt.decode] the [jti] is a [str] or absent. *)
Lemma decoded_jti now token k algorithms audience payload :
  jwt.decode now token k algorithms audience = Ok payload ->
  dict_get payload "jti" = VNone \/ exists s, dict_get payload "jti" = VStr s.
Proof.
  intros H. apply decode_Ok_inv in H as (j & _ & _ & _ & _ & Hv).
  apply validate_claims_Ok in Hv as (_ & _ & _ & _ & _ & Hj & _).
  unfold jwt._validate_jti in Hj.
  destruct (dict_contains payload "jti") eqn:Hc.
  - destruct (dict_get payload "jti"); cbn in Hj; try discriminate. eauto.
  - left. apply dict_get_absent. exact Hc.
Qed.

(** A token that decodes now decodes later too, until it expires. *)
Lemma decode_later now now' token k algorithms audience payload :
  jwt.decode now token k algorithms audience = Ok payload ->
  now <= now' ->
  jwt.decode now' token k algorithms audience = Ok payload \/
  jwt.decode now' token k algorithms audience =
    Raise (ExpiredSignatureError "Signature has expired.").
Proof.
  intros H Hle.
  apply decode_Ok_inv in H as (j & -> & <- & Halg & Hs & Hv).
  apply validate_claims_Ok in Hv as (Hiat & Hnbf & Hexp & Haud & Hsub & Hjti & Hat).
  unfold jwt.decode. rewrite Halg, Hs, N.eqb_refl. cbn [negb].
  assert (Hnbf' : jwt._validate_nbf now' (jws_payload j) = Ok tt).
  { unfold jwt._validate_nbf in *. destruct (dict_contains _ "nbf"); [|reflexivity].
    destruct (jwt.int_claim _ _) as [nbf|]; [|discriminate].
    destruct (Z.ltb_spec now nbf); [discriminate|].
    destruct (Z.ltb_spec now' nbf); [lia|reflexivity]. }
  unfold jwt._validate_claims. rewrite Hiat, Hnbf'. cbn [jwt.andThen].
  unfold jwt._validate_exp in *. destruct (dict_contains _ "exp").
  - destruct (jwt.int_claim _ _) as [exp|]; [|discriminate].
    destruct (Z.ltb_spec exp now'); [right; reflexivity|].
    left. cbn [jwt.andThen]. rewrite Haud, Hsub, Hjti, Hat. reflexivity.
  - left. cbn [jwt.andThen]. rewrite Haud, Hsub, Hjti, Hat. reflexivity.
Qed.

(** ** What each call leaves of the revocation index *)

Ltac crush_world :=
  unfold_M;
  unfold add_token_commit, query_token_by_jti, query_user_by_id, revoke_commit,
    discard_valid_refresh, add_revoked, set_contains in *;
  unfold_M;
  repeat case_match; simplify_eq/=; try reflexivity.

Lemma create_access_revoked cfg uuid now user db extra expires_minutes w :
  _revoked_jtis (snd (create_access_token_for_user cfg uuid now user db extra
                        expires_minutes w)) = _revoked_jtis w.
Proof. unfold create_access_token_for_user. crush_world. Qed.

Lemma create_refresh_revoked cfg uuid now user db expires_days w :
  _revoked_jtis (snd (create_refresh_token_for_user cfg uuid now user db
                        expires_days w)) = _revoked_jtis w.
Proof. unfold create_refresh_token_for_user. crush_world. Qed.

Lemma logout_revoked cfg now request db w :
  _revoked_jtis (snd (logout cfg now request db w)) = _revoked_jtis w.
Proof. unfold logout. crush_world. Qed.

Lemma admin_revoke_revoked cfg now token_jti request db w :
  _revoked_jtis (snd (admin_revoke cfg now token_jti request db w)) = _revoked_jtis w.
Proof.
  unfold admin_revoke. unfold_M.
  destruct (negb _); [reflexivity|].
  pose proof (verify_world cfg now (cookies_get request "access_token") true true w) as Hw.
  destruct (verify_jwt_token_strict _ _ _ _ _ _) as [[p|e] w']; cbn in Hw; subst w';
    [|reflexivity].
  crush_world.
Qed.

Lemma refresh_token_revoked cfg ua ur now request db w :
  _revoked_jtis w ⊆ _revoked_jtis (snd (refresh_token cfg ua ur now request db w)).
Proof.
  unfold refresh_token. unfold_M.
  destruct (negb _); [reflexivity|].
  match goal with |- context [verify_jwt_token_strict ?c ?n ?t ?a ?i ?w] =>
    pose proof (verify_world c n t a i w) as Hw;
    destruct (verify_jwt_token_strict c n t a i w) as [[p|e] w'] end;
    cbn in Hw; subst w'; [|reflexivity].
  unfold create_access_token_for_user, create_refresh_token_for_user.
  crush_world; set_solver.
Qed.

Lemma after_revoked cfg c w : _revoked_jtis w ⊆ _revoked_jtis (after cfg c w).
Proof.
  destruct c; cbn [after].
  - rewrite create_access_revoked. reflexivity.
  - rewrite create_refresh_revoked. reflexivity.
  - rewrite verify_world. reflexivity.
  - apply refresh_token_revoked.
  - rewrite logout_revoked. reflexivity.
  - rewrite admin_revoke_revoked. reflexivity.
Qed.

(** Nothing ever leaves [_revoked_jtis]. *)
Lemma after_all_revoked cfg cs w j :
  j ∈ _revoked_jtis w -> j ∈ _revoked_jtis (after_all cfg cs w).
Proof.
  unfold after_all. revert w. induction cs as [|c cs IH]; intros w Hj; cbn; [exact Hj|].
  apply IH. apply (after_revoked cfg c w). exact Hj.
Qed.

(** ** The refresh endpoint *)

Lemma refresh_token_verify_raise cfg ua ur now request db w e :
  truthy (presented request) = true ->
  fst (verify_jwt_token_strict cfg now (presented request) true true w) = Raise e ->
  refresh_token cfg ua ur now request db w = (Raise e, w).
Proof.
  unfold presented. intros Ht Hv. unfold refresh_token. rewrite Ht. cbn [negb].
  unfold_M.
  match goal with |- context [verify_jwt_token_strict ?c ?n ?t ?a ?i ?w] =>
    pose proof (verify_world c n t a i w) as Hw;
    destruct (verify_jwt_token_strict c n t a i w) as [r w'] end.
  cbn in Hw, Hv. subst. reflexivity.
Qed.

(** A call that gets past the membership test: the index is updated, the
    tables are not, and the call ends in the user lookup or in the first
    issuing call. *)
Lemma refresh_token_retires cfg ua ur now request db w payload j :
  fst (verify_jwt_token_strict cfg now (presented request) true true w) = Ok payload ->
  dict_get payload "type" = VStr "refresh" ->
  dict_get payload "jti" = VStr j ->
  j ∈ _valid_refresh_jtis w ->
  refresh_token cfg ua ur now request db w =
    (match user_of w (dict_get payload "user_id") with
     | Some _ => Raise MissingDbArgument
     | None => Raise UserNotFound
     end,
     mkWorld ({[j]} ∪ _revoked_jtis w) (_valid_refresh_jtis w ∖ {[j]})
             (users w) (tokens w)).
Proof.
  unfold presented. intros Hv Hty Hj Hin. unfold refresh_token.
  destruct (truthy _) eqn:Ht.
  2:{ rewrite verify_missing in Hv by exact Ht. discriminate. }
  cbn [negb]. unfold_M.
  match goal with |- context [verify_jwt_token_strict ?c ?n ?t ?a ?i ?w] =>
    pose proof (verify_world c n t a i w) as Hw;
    destruct (verify_jwt_token_strict c n t a i w) as [r w'] end.
  cbn in Hw, Hv. subst r w'.
  rewrite Hty, Hj. cbn [value_is_str String.eqb Ascii.eqb Bool.eqb negb].
  unfold set_contains. rewrite bool_decide_eq_true_2 by exact Hin. cbn [negb].
  unfold discard_valid_refresh, add_revoked, query_user_by_id, user_of. unfold_M.
  cbn [with_valid_refresh_jtis with_revoked_jtis _revoked_jtis _valid_refresh_jtis
       users tokens].
  destruct (dict_get payload "user_id"); try reflexivity.
  destruct (find _ _); reflexivity.
Qed.

(** No call of [refresh_token] returns a response: the calls that get as
    far as issuing stop at [create_access_token_for_user], which is called
    without its [db]. *)
Lemma refresh_token_never_returns cfg ua ur now request db w response :
  fst (refresh_token cfg ua ur now request db w) <> Ok response.
Proof.
  unfold refresh_token. unfold_M.
  destruct (negb _); [discriminate|].
  destruct (verify_jwt_token_strict _ _ _ _ _ _) as [[p|e] w']; [|discriminate].
  unfold create_access_token_for_user. crush_world; discriminate.
Qed.

Lemma verify_Ok_inv cfg now token ca ci w payload :
  fst (verify_jwt_token_strict cfg now token ca ci w) = Ok payload ->
  truthy token = true /\
  jwt.decode now token (PUBLIC_KEY cfg) [ALGORITHM] (audience_arg cfg ca) = Ok payload /\
  (ci = true -> value_is_str (dict_get payload "iss") (ISSUER cfg) = true) /\
  set_contains (_revoked_jtis w) (dict_get payload "jti") = Ok false.
Proof.
  intros H. destruct (truthy token) eqn:Ht.
  2:{ rewrite verify_missing in H by exact Ht. discriminate. }
  destruct (jwt.decode now token (PUBLIC_KEY cfg) [ALGORITHM] (audience_arg cfg ca))
    as [p|e] eqn:Hd.
  2:{ rewrite (verify_decode_raise _ _ _ _ _ _ e) in H by assumption. discriminate. }
  rewrite (verify_decode_ok _ _ _ _ _ _ p) in H by assumption. cbn [fst] in H.
  destruct ci; cbn [andb] in H.
  - destruct (value_is_str _ _) eqn:Hi; cbn [negb] in H; [|discriminate].
    destruct (set_contains _ _) as [[|]|] eqn:Hs; try discriminate.
    injection H as ->. auto.
  - destruct (set_contains _ _) as [[|]|] eqn:Hs; try discriminate.
    injection H as ->. repeat split; [discriminate|exact Hs].
Qed.

(** A validly decoded token whose [jti] is in [_revoked_jtis] is reported
    revoked. *)
Lemma verify_revoked cfg now token ca ci w payload j :
  jwt.decode now token (PUBLIC_KEY cfg) [ALGORITHM] (audience_arg cfg ca) = Ok payload ->
  (ci = true -> value_is_str (dict_get payload "iss") (ISSUER cfg) = true) ->
  dict_get payload "jti" = VStr j ->
  j ∈ _revoked_jtis w ->
  verify_jwt_token_strict cfg now token ca ci w = (Raise Revoked, w).
Proof.
  intros Hd Hi Hj Hin. rewrite (verify_decode_ok _ _ _ _ _ _ payload) by exact Hd.
  rewrite Hj. unfold set_contains. rewrite bool_decide_eq_true_2 by exact Hin.
  destruct ci; cbn [andb]; [|reflexivity].
  rewrite Hi by reflexivity. reflexivity.
Qed.

(** A token whose [jti] is in [_revoked_jtis] is never accepted. *)
Lemma verify_revoked_never_Ok cfg now jw ca ci w j payload :
  dict_get (jws_payload jw) "jti" = VStr j ->
  j ∈ _revoked_jtis w ->
  fst (verify_jwt_token_strict cfg now (Some (Compact jw)) ca ci w) <> Ok payload.
Proof.
  intros Hj Hin H. apply verify_Ok_inv in H as (_ & Hd & _ & Hs).
  apply decode_Ok_inv in Hd as (j' & [= <-] & <- & _).
  rewrite Hj in Hs. unfold set_contains in Hs.
  rewrite bool_decide_eq_true_2 in Hs by exact Hin. discriminate.
Qed.

(** The verifier reads nothing of the world but [_revoked_jtis]. *)
Lemma verify_depends_on_revoked cfg now token ca ci w1 w2 :
  _revoked_jtis w1 = _revoked_jtis w2 ->
  fst (verify_jwt_token_strict cfg now token ca ci w1)
  = fst (verify_jwt_token_strict cfg now token ca ci w2).
Proof.
  intros H. destruct (truthy token) eqn:Ht.
  2:{ rewrite !verify_missing by exact Ht. reflexivity. }
  destruct (jwt.decode now token (PUBLIC_KEY cfg) [ALGORITHM] (audience_arg cfg ca))
    as [p|e] eqn:Hd.
  - rewrite !(verify_decode_ok _ _ _ _ _ _ p Hd). cbn [fst]. rewrite H. reflexivity.
  - rewrite !(verify_decode_raise _ _ _ _ _ _ e Ht Hd). reflexivity.
Qed.

(** What a call of [refresh_token] does once the token has verified and
    turns out not to be a refresh token, or not to be in
    [_valid_refresh_jtis]. *)
Lemma refresh_token_past_verify cfg ua ur now request db w payload :
  fst (verify_jwt_token_strict cfg now (presented request) true true w) = Ok payload ->
  (value_is_str (dict_get payload "type") "refresh" = false ->
   refresh_token cfg ua ur now request db w = (Raise NotARefreshToken, w)) /\
  (value_is_str (dict_get payload "type") "refresh" = true ->
   set_contains (_valid_refresh_jtis w) (dict_get payload "jti") = Ok false ->
   refresh_token cfg ua ur now request db w = (Raise InvalidOrRevoked, w)).
Proof.
  intros Hv. unfold presented in Hv.
  assert (Ht : truthy (py_or (cookies_get request "refresh_token")
                         (Some (bearer request))) = true).
  { destruct (truthy _) eqn:Ht; [reflexivity|].
    rewrite verify_missing in Hv by exact Ht. discriminate. }
  pose proof (verify_world cfg now
                (py_or (cookies_get request "refresh_token") (Some (bearer request)))
                true true w) as Hw.
  split.
  - intros Hty. unfold refresh_token. rewrite Ht. cbn [negb]. unfold_M.
    destruct (verify_jwt_token_strict _ _ _ _ _ _) as [res w0].
    cbn [fst snd] in Hv, Hw. subst res w0. rewrite Hty. reflexivity.
  - intros Hty Hs. unfold refresh_token. rewrite Ht. cbn [negb]. unfold_M.
    destruct (verify_jwt_token_strict _ _ _ _ _ _) as [res w0].
    cbn [fst snd] in Hv, Hw. subst res w0. rewrite Hty. cbn [negb]. rewrite Hs.
    reflexivity.
Qed.



(** * The claims *)

(** C1 (the code departs from it).  A valid, unexpired, never-rotated
    refresh token of an existing user is presented to [refresh_token]: the
    call retires the token and then raises [TypeError], because it calls
    [create_access_token_for_user] without the required keyword-only [db]
    that [login_user] passes.  No token pair is returned. *)
Theorem refresh_token_fresh_token_raises cfg ua ur now request db w payload j u :
  fst (verify_jwt_token_strict cfg now (presented request) true true w) = Ok payload ->
  dict_get payload "type" = VStr "refresh" ->
  dict_get payload "jti" = VStr j ->
  j ∈ _valid_refresh_jtis w ->
  user_of w (dict_get payload "user_id") = Some u ->
  refresh_token cfg ua ur now request db w =
    (Raise MissingDbArgument,
     mkWorld ({[j]} ∪ _revoked_jtis w) (_valid_refresh_jtis w ∖ {[j]})
             (users w) (tokens w)).
Proof.
  intros Hv Hty Hj Hin Hu.
  rewrite (refresh_token_retires _ _ _ _ _ _ _ payload j) by assumption.
  rewrite Hu. reflexivity.
Qed.

Lemma refresh_token_fresh_token_raises_witness :
  fst (verify_jwt_token_strict default_cfg 1001 (presented request_R) true true
         world_login) = Ok (claims_of token_R) /\
  "jti-R" ∈ _valid_refresh_jtis world_login /\
  fst (refresh_token default_cfg "jti-A2" "jti-R2" 1001 request_R get_db world_login)
    = Raise MissingDbArgument.
Proof.
  assert (Hin : "jti-R" ∈ _valid_refresh_jtis world_login).
  { apply (bool_decide_eq_true_1 ("jti-R" ∈ _valid_refresh_jtis world_login)).
    vm_compute. reflexivity. }
  split; [vm_compute; reflexivity|]. split; [exact Hin|].
  rewrite (refresh_token_fresh_token_raises default_cfg "jti-A2" "jti-R2" 1001
             request_R get_db world_login (claims_of token_R) "jti-R" alice);
    [reflexivity | vm_compute; reflexivity | reflexivity | reflexivity | exact Hin
    | reflexivity].
Defined.






(** C4 (the code departs from it on the logout path).  [logout] marks the
    rows of the two tokens revoked in the store (lines 271-276) and enters
    no id into [_revoked_jtis], as the rotation path does at line 238; the
    verifier reads [_revoked_jtis] only.  So a logout is not seen by the
    verifier at all: whatever the request, the verifier answers every
    token, at every later time and for every setting of the two flags,
    exactly as it would have answered without the call, and a logged-out
    token is accepted until it expires. *)
Theorem verify_ignores_logout cfg now request db w now' token ca ci :
  _revoked_jtis (snd (logout cfg now request db w)) = _revoked_jtis w /\
  verify_jwt_token_strict cfg now' token ca ci (snd (logout cfg now request db w))
  = (fst (verify_jwt_token_strict cfg now' token ca ci w),
     snd (logout cfg now request db w)).
Proof.
  split; [apply logout_revoked|].
  rewrite (surjective_pairing (verify_jwt_token_strict _ _ _ _ _ _)).
  rewrite verify_world. f_equal.
  apply verify_depends_on_revoked, logout_revoked.
Qed.

Lemma verify_ignores_logout_witness :
  let w := snd (logout default_cfg 1002 request_R get_db world_login) in
  option_map Token.revoked (record_of w "jti-A") = Some true /\
  option_map Token.revoked (record_of w "jti-R") = Some true /\
  verify_jwt_token_strict default_cfg 1003 (Some token_A) true true w
    = (Ok (claims_of token_A), w) /\
  verify_jwt_token_strict default_cfg 1003 (Some token_R) true true w
    = (Ok (claims_of token_R), w).
Proof.
  cbv zeta. split; [vm_compute; reflexivity|]. split; [vm_compute; reflexivity|].
  split.
  - rewrite (proj2 (verify_ignores_logout default_cfg 1002 request_R get_db world_login
                      1003 (Some token_A) true true)).
    f_equal.
  - rewrite (proj2 (verify_ignores_logout default_cfg 1002 request_R get_db world_login
                      1003 (Some token_R) true true)).
    f_equal.
Defined.

(** The rotation path, for comparison.  Within one process, after a
    [refresh_token] call has retired a token id, every later verification
    of a token that carries this id fails, after any calls in between and
    for every setting of the two flags; it fails with [Revoked] whenever
    the token passes the checks of [jwt.decode] (signature, time, audience)
    and the issuer check.  The sets do not outlive the process. *)
Theorem verify_after_rotation_is_Revoked
    cfg ua ur now request db w payload j cs now' jw ca ci :
  fst (verify_jwt_token_strict cfg now (presented request) true true w) = Ok payload ->
  dict_get payload "type" = VStr "refresh" ->
  dict_get payload "jti" = VStr j ->
  j ∈ _valid_refresh_jtis w ->
  dict_get (jws_payload jw) "jti" = VStr j ->
  let w2 := after_all cfg cs (snd (refresh_token cfg ua ur now request db w)) in
  (forall p, fst (verify_jwt_token_strict cfg now' (Some (Compact jw)) ca ci w2) <> Ok p) /\
  (forall p,
     jwt.decode now' (Some (Compact jw)) (PUBLIC_KEY cfg) [ALGORITHM]
       (audience_arg cfg ca) = Ok p ->
     (ci = true -> dict_get p "iss" = VStr (ISSUER cfg)) ->
     verify_jwt_token_strict cfg now' (Some (Compact jw)) ca ci w2 = (Raise Revoked, w2)).
Proof.
  intros Hv Hty Hj Hin Hjw w2.
  assert (Hrev : j ∈ _revoked_jtis w2).
  { apply after_all_revoked.
    rewrite (refresh_token_retires _ _ _ _ _ _ _ payload j) by assumption.
    cbn [snd _revoked_jtis]. apply elem_of_union_l, elem_of_singleton. reflexivity. }
  split.
  - intros p. apply (verify_revoked_never_Ok _ _ _ _ _ _ j); assumption.
  - intros p Hd Hi. apply (verify_revoked _ _ _ _ _ _ p j); try assumption.
    + intros Hci. rewrite (Hi Hci). cbn [value_is_str]. apply String.eqb_refl.
    + apply decode_Ok_inv in Hd as (j' & [= <-] & <- & _). exact Hjw.
Qed.

Lemma verify_after_rotation_is_Revoked_witness :
  fst (verify_jwt_token_strict default_cfg 1001 (presented request_R) true true
         world_login) = Ok (claims_of token_R) /\
  "jti-R" ∈ _valid_refresh_jtis world_login /\
  fst (verify_jwt_token_strict default_cfg 1002 (Some token_R) true true
         (after_all default_cfg [CallVerify 1001 (Some token_A) true true] world_rotated))
    = Raise Revoked.
Proof.
  assert (Hin : "jti-R" ∈ _valid_refresh_jtis world_login).
  { apply (bool_decide_eq_true_1 ("jti-R" ∈ _valid_refresh_jtis world_login)).
    vm_compute. reflexivity. }
  split; [vm_compute; reflexivity|]. split; [exact Hin|].
  destruct (verify_after_rotation_is_Revoked default_cfg "jti-A2" "jti-R2" 1001
              request_R get_db world_login (claims_of token_R) "jti-R"
              [CallVerify 1001 (Some token_A) true true] 1002
              {| jws_alg := "RS256"; jws_payload := claims_of token_R;
                 jws_signer := Some 1%N |} true true)
    as [_ Hrev];
    [vm_compute; reflexivity | reflexivity | reflexivity | exact Hin | reflexivity |].
  change (Some token_R) with
    (Some (Compact {| jws_alg := "RS256"; jws_payload := claims_of token_R;
                      jws_signer := Some 1%N |})).
  unfold world_rotated.
  rewrite (Hrev (claims_of token_R)); [reflexivity | vm_compute; reflexivity
                                      | intros _; reflexivity].
Defined.

(** ** The order of the verifier's checks *)

Lemma value_is_str_neq v s : v <> VStr s -> value_is_str v s = false.
Proof.
  destruct v as [| | |x|]; cbn; try reflexivity.
  intros H. destruct (String.eqb_spec x s); [congruence|reflexivity].
Qed.

Lemma validate_exp_expired now claims exp :
  dict_contains claims "exp" = true -> dict_get claims "exp" = VInt exp -> exp < now ->
  jwt._validate_exp now claims = Raise (ExpiredSignatureError "Signature has expired.").
Proof.
  intros Hc Hg Hlt. unfold jwt._validate_exp. rewrite Hc, Hg. cbn [jwt.int_claim].
  destruct (Z.ltb_spec exp now); [reflexivity|lia].
Qed.

Lemma validate_aud_mismatch claims aud audience :
  dict_contains claims "aud" = true -> dict_get claims "aud" = VStr aud ->
  aud <> audience ->
  jwt._validate_aud claims (Some audience) = Raise (JWTClaimsError "Invalid audience").
Proof.
  intros Hc Hg Hne. unfold jwt._validate_aud. rewrite Hc, Hg.
  cbn [forallb isinstance_str andb negb existsb value_is_str orb].
  destruct (String.eqb_spec aud audience); [congruence|reflexivity].
Qed.

Lemma int_claim_not_http v msg e : jwt.int_claim v msg = Raise e -> not_http e.
Proof.
  unfold jwt.int_claim. destruct v as [| | |x|]; try discriminate.
  - intros [= <-]. exact I.
  - destruct (jwt.int_of_str x); [discriminate|]. intros [= <-]. exact I.
  - intros [= <-]. exact I.
Qed.

Lemma validate_claims_not_http now claims audience e :
  jwt._validate_claims now claims audience = Raise e -> not_http e.
Proof.
  unfold jwt._validate_claims, jwt.andThen.
  destruct (jwt._validate_iat claims) as [[]|e1] eqn:H1.
  2:{ intros [= <-]. unfold jwt._validate_iat in H1.
      destruct (dict_contains claims "iat"); [|discriminate].
      destruct (jwt.int_claim _ _) eqn:Hi; [discriminate|].
      injection H1 as <-. exact (int_claim_not_http _ _ _ Hi). }
  destruct (jwt._validate_nbf now claims) as [[]|e2] eqn:H2.
  2:{ intros [= <-]. unfold jwt._validate_nbf in H2.
      destruct (dict_contains claims "nbf"); [|discriminate].
      destruct (jwt.int_claim _ _) eqn:Hi.
      - destruct (now <? a); [|discriminate]. injection H2 as <-. exact I.
      - injection H2 as <-. exact (int_claim_not_http _ _ _ Hi). }
  destruct (jwt._validate_exp now claims) as [[]|e3] eqn:H3.
  2:{ intros [= <-]. unfold jwt._validate_exp in H3.
      destruct (dict_contains claims "exp"); [|discriminate].
      destruct (jwt.int_claim _ _) eqn:Hi.
      - destruct (a <? now); [|discriminate]. injection H3 as <-. exact I.
      - injection H3 as <-. exact (int_claim_not_http _ _ _ Hi). }
  destruct (jwt._validate_aud claims audience) as [[]|e4] eqn:H4.
  2:{ intros [= <-]. unfold jwt._validate_aud in H4.
      repeat case_match; simplify_eq; exact I. }
  destruct (jwt._validate_sub claims) as [[]|e5] eqn:H5.
  2:{ intros [= <-]. unfold jwt._validate_sub in H5.
      repeat case_match; simplify_eq; exact I. }
  destruct (jwt._validate_jti claims) as [[]|e6] eqn:H6.
  2:{ intros [= <-]. unfold jwt._validate_jti in H6.
      repeat case_match; simplify_eq; exact I. }
  unfold jwt._validate_at_hash. destruct (dict_contains claims "at_hash"); [|discriminate].
  intros [= <-]. exact I.
Qed.

Lemma decode_not_http now token k algorithms audience e :
  jwt.decode now token k algorithms audience = Raise e -> not_http e.
Proof.
  unfold jwt.decode. destruct token as [[j|s]|]; try (intros [= <-]; exact I).
  destruct (negb _); [intros [= <-]; exact I|].
  destruct (jws_signer j) as [k'|]; [|intros [= <-]; exact I].
  destruct (N.eqb k' k); [|intros [= <-]; exact I].
  destruct (jwt._validate_claims _ _ _) eqn:Hv; [discriminate|].
  intros [= <-]. exact (validate_claims_not_http _ _ _ _ Hv).
Qed.

(** [Revoked] is reported only for a token that [jwt.decode] accepted. *)
Lemma Revoked_only_after_decode cfg now token ca ci w :
  fst (verify_jwt_token_strict cfg now token ca ci w) = Raise Revoked ->
  exists payload,
    jwt.decode now token (PUBLIC_KEY cfg) [ALGORITHM] (audience_arg cfg ca) = Ok payload.
Proof.
  intros H. destruct (truthy token) eqn:Ht.
  2:{ rewrite verify_missing in H by exact Ht. discriminate. }
  destruct (jwt.decode now token (PUBLIC_KEY cfg) [ALGORITHM] (audience_arg cfg ca))
    as [p|e] eqn:Hd; [eauto|].
  rewrite (verify_decode_raise _ _ _ _ _ _ e) in H by assumption. cbn [fst] in H.
  apply decode_not_http in Hd.
  destruct e; cbn in H, Hd; try discriminate. contradiction.
Qed.

(** An expired token is never reported revoked, and never accepted,
    whatever else is wrong or right with it. *)
Lemma expired_is_never_Revoked cfg now j exp ca ci w :
  dict_contains (jws_payload j) "exp" = true ->
  dict_get (jws_payload j) "exp" = VInt exp -> exp < now ->
  fst (verify_jwt_token_strict cfg now (Some (Compact j)) ca ci w) <> Raise Revoked /\
  forall payload,
    fst (verify_jwt_token_strict cfg now (Some (Compact j)) ca ci w) <> Ok payload.
Proof.
  intros Hc Hg Hlt.
  assert (Hno : forall p, jwt.decode now (Some (Compact j)) (PUBLIC_KEY cfg) [ALGORITHM]
                            (audience_arg cfg ca) <> Ok p).
  { intros p Hd. apply decode_Ok_inv in Hd as (j' & [= <-] & <- & _ & _ & Hv).
    apply validate_claims_Ok in Hv as (_ & _ & He & _).
    rewrite (validate_exp_expired _ _ exp) in He by assumption. discriminate. }
  split.
  - intros H. apply Revoked_only_after_decode in H as [p Hd]. exact (Hno p Hd).
  - intros p H. apply verify_Ok_inv in H as (_ & Hd & _). exact (Hno p Hd).
Qed.

(** With [check_audience=False] the verifier passes no audience to
    [jwt.decode], and jose then refuses every token that carries an [aud]
    claim: the flag does not switch the audience check off. *)
Lemma verify_without_audience_rejects_aud cfg now j aud ci w :
  well_signed cfg j ->
  jwt._validate_iat (jws_payload j) = Ok tt ->
  jwt._validate_nbf now (jws_payload j) = Ok tt ->
  jwt._validate_exp now (jws_payload j) = Ok tt ->
  dict_contains (jws_payload j) "aud" = true ->
  dict_get (jws_payload j) "aud" = VStr aud ->
  verify_jwt_token_strict cfg now (Some (Compact j)) false ci w
    = (Raise InvalidAudience, w).
Proof.
  intros Hs Hiat Hnbf Hexp Hc Hg.
  apply (verify_decode_raise _ _ _ _ _ _ (JWTClaimsError "Invalid audience"));
    [reflexivity|].
  rewrite decode_well_signed by exact Hs. unfold jwt._validate_claims.
  rewrite Hiat, Hnbf, Hexp. cbn [jwt.andThen audience_arg].
  unfold jwt._validate_aud. rewrite Hc, Hg. reflexivity.
Qed.

(** C5 (the code departs from it where the audience check is switched
    off).  [verify_jwt_token_strict] checks in a fixed order: (1) missing
    token, (2) algorithm and signature, (3) expiry, (4) audience, (5)
    issuer when [check_issuer] is set, (6) revocation.  A token that fails
    one check and passes the ones before it gets the rejection of that
    check, whatever the later checks would say; the rejections are
    pairwise different.  In particular (3) a correctly signed token that
    is expired is reported [Expired] whether or not its id is in
    [_revoked_jtis], and no expired token at all is ever reported
    [Revoked].  The departure is in (4): with [check_audience=True] a token
    whose [aud] is not the configured audience is rejected, as claimed;
    with [check_audience=False] the audience check is not skipped: lines
    138-139 call [jwt.decode] without an audience, and every token that
    carries an [aud] claim, the configured one included, is rejected with
    [InvalidAudience] before the issuer and revocation checks are
    reached. *)
Theorem verify_check_order cfg now w ca ci :
  (forall token, truthy token = false ->
     verify_jwt_token_strict cfg now token ca ci w = (Raise MissingToken, w)) /\
  (forall j, ~ well_signed cfg j ->
     verify_jwt_token_strict cfg now (Some (Compact j)) ca ci w
       = (Raise InvalidAlgorithm, w) \/
     verify_jwt_token_strict cfg now (Some (Compact j)) ca ci w
       = (Raise InvalidSignature, w)) /\
  (forall j exp, well_signed cfg j ->
     jwt._validate_iat (jws_payload j) = Ok tt ->
     jwt._validate_nbf now (jws_payload j) = Ok tt ->
     dict_contains (jws_payload j) "exp" = true ->
     dict_get (jws_payload j) "exp" = VInt exp -> exp < now ->
     verify_jwt_token_strict cfg now (Some (Compact j)) ca ci w = (Raise Expired, w)) /\
  (forall j aud, well_signed cfg j ->
     jwt._validate_iat (jws_payload j) = Ok tt ->
     jwt._validate_nbf now (jws_payload j) = Ok tt ->
     jwt._validate_exp now (jws_payload j) = Ok tt ->
     ca = true ->
     dict_contains (jws_payload j) "aud" = true ->
     dict_get (jws_payload j) "aud" = VStr aud -> aud <> AUDIENCE cfg ->
     verify_jwt_token_strict cfg now (Some (Compact j)) ca ci w
       = (Raise InvalidAudience, w)) /\
  (forall j aud, well_signed cfg j ->
     jwt._validate_iat (jws_payload j) = Ok tt ->
     jwt._validate_nbf now (jws_payload j) = Ok tt ->
     jwt._validate_exp now (jws_payload j) = Ok tt ->
     ca = false ->
     dict_contains (jws_payload j) "aud" = true ->
     dict_get (jws_payload j) "aud" = VStr aud ->
     verify_jwt_token_strict cfg now (Some (Compact j)) ca ci w
       = (Raise InvalidAudience, w)) /\
  (forall token payload,
     jwt.decode now token (PUBLIC_KEY cfg) [ALGORITHM] (audience_arg cfg ca) = Ok payload ->
     ci = true -> dict_get payload "iss" <> VStr (ISSUER cfg) ->
     verify_jwt_token_strict cfg now token ca ci w = (Raise InvalidIssuer, w)) /\
  (forall token payload jti,
     jwt.decode now token (PUBLIC_KEY cfg) [ALGORITHM] (audience_arg cfg ca) = Ok payload ->
     (ci = true -> dict_get payload "iss" = VStr (ISSUER cfg)) ->
     dict_get payload "jti" = VStr jti -> jti ∈ _revoked_jtis w ->
     verify_jwt_token_strict cfg now token ca ci w = (Raise Revoked, w)) /\
  (forall token payload,
     jwt.decode now token (PUBLIC_KEY cfg) [ALGORITHM] (audience_arg cfg ca) = Ok payload ->
     (ci = true -> dict_get payload "iss" = VStr (ISSUER cfg)) ->
     (forall jti, dict_get payload "jti" = VStr jti -> jti ∉ _revoked_jtis w) ->
     verify_jwt_token_strict cfg now token ca ci w = (Ok payload, w)) /\
  (forall j exp,
     dict_contains (jws_payload j) "exp" = true ->
     dict_get (jws_payload j) "exp" = VInt exp -> exp < now ->
     fst (verify_jwt_token_strict cfg now (Some (Compact j)) ca ci w) <> Raise Revoked) /\
  NoDup [MissingToken; InvalidAlgorithm; InvalidSignature; Expired; InvalidAudience;
         InvalidIssuer; Revoked].
Proof.
  split_and!.
  - intros token Ht. apply verify_missing. exact Ht.
  - intros j Hn.
    destruct (decode_badly_signed cfg now j (audience_arg cfg ca) Hn) as [Hd|Hd];
      [left|right];
      rewrite (verify_decode_raise cfg now (Some (Compact j)) ca ci w _ eq_refl Hd);
      reflexivity.
  - intros j exp Hs Hiat Hnbf Hc Hg Hlt.
    apply (verify_decode_raise _ _ _ _ _ _ (ExpiredSignatureError "Signature has expired."));
      [reflexivity|].
    rewrite decode_well_signed by exact Hs. unfold jwt._validate_claims.
    rewrite Hiat, Hnbf, (validate_exp_expired _ _ exp) by assumption. reflexivity.
  - intros j aud Hs Hiat Hnbf Hexp -> Hc Hg Hne.
    apply (verify_decode_raise _ _ _ _ _ _ (JWTClaimsError "Invalid audience"));
      [reflexivity|].
    rewrite decode_well_signed by exact Hs. unfold jwt._validate_claims.
    cbn [audience_arg].
    rewrite Hiat, Hnbf, Hexp, (validate_aud_mismatch _ aud) by assumption. reflexivity.
  - intros j aud Hs Hiat Hnbf Hexp -> Hc Hg.
    apply (verify_without_audience_rejects_aud cfg now j aud ci w); assumption.
  - intros token payload Hd -> Hne.
    rewrite (verify_decode_ok _ _ _ _ _ _ payload) by exact Hd.
    rewrite value_is_str_neq by exact Hne. reflexivity.
  - intros token payload jti Hd Hi Hj Hin.
    apply (verify_revoked _ _ _ _ _ _ payload jti); try assumption.
    intros Hci. rewrite (Hi Hci). cbn [value_is_str]. apply String.eqb_refl.
  - intros token payload Hd Hi Hfresh.
    rewrite (verify_decode_ok _ _ _ _ _ _ payload) by exact Hd.
    assert (Hiss : ci && negb (value_is_str (dict_get payload "iss") (ISSUER cfg)) = false).
    { destruct ci; [|reflexivity]. rewrite Hi by reflexivity.
      cbn [value_is_str]. rewrite String.eqb_refl. reflexivity. }
    rewrite Hiss.
    destruct (decoded_jti _ _ _ _ _ _ Hd) as [Hj|[s Hj]]; rewrite Hj; cbn [set_contains].
    + reflexivity.
    + rewrite bool_decide_eq_false_2 by (apply Hfresh; exact Hj). reflexivity.
  - intros j exp Hc Hg Hlt.
    apply (expired_is_never_Revoked cfg now j exp ca ci w Hc Hg Hlt).
  - apply (bool_decide_unpack _). vm_compute. exact I.
Qed.

Lemma verify_check_order_witness :
  "jti-R" ∈ _revoked_jtis world_rotated /\
  verify_jwt_token_strict default_cfg long_after (Some token_R) true true world_rotated
    = (Raise Expired, world_rotated) /\
  verify_jwt_token_strict default_cfg 1002 (Some token_R) true true world_rotated
    = (Raise Revoked, world_rotated) /\
  verify_jwt_token_strict default_cfg 1001 (Some token_A) true true world_login
    = (Ok (claims_of token_A), world_login) /\
  verify_jwt_token_strict default_cfg 1001 (Some token_A) false true world_login
    = (Raise InvalidAudience, world_login).
Proof.
  assert (Hin : "jti-R" ∈ _revoked_jtis world_rotated).
  { apply (bool_decide_eq_true_1 ("jti-R" ∈ _revoked_jtis world_rotated)).
    vm_compute. reflexivity. }
  split; [exact Hin|]. split.
  - destruct (verify_check_order default_cfg long_after world_rotated true true)
      as (_ & _ & Hexp & _).
    apply (Hexp {| jws_alg := "RS256"; jws_payload := claims_of token_R;
                   jws_signer := Some 1%N |} 2593000);
      [split; reflexivity | reflexivity | reflexivity | reflexivity | reflexivity
      | unfold long_after; lia].
  - split; [|split].
    + destruct (verify_check_order default_cfg 1002 world_rotated true true)
        as (_ & _ & _ & _ & _ & _ & Hrev & _).
      apply (Hrev (Some token_R) (claims_of token_R) "jti-R");
        [vm_compute; reflexivity | intros _; reflexivity | reflexivity | exact Hin].
    + destruct (verify_check_order default_cfg 1001 world_login true true)
        as (_ & _ & _ & _ & _ & _ & _ & Hok & _).
      apply (Hok (Some token_A) (claims_of token_A));
        [vm_compute; reflexivity | intros _; reflexivity |].
      intros jti [= <-].
      apply (bool_decide_eq_false_1 ("jti-A" ∈ _revoked_jtis world_login)).
      vm_compute. reflexivity.
    + destruct (verify_check_order default_cfg 1001 world_login false true)
        as (_ & _ & _ & _ & Hoff & _).
      apply (Hoff {| jws_alg := "RS256"; jws_payload := claims_of token_A;
                     jws_signer := Some 1%N |} "myblogapp_users");
        [split; reflexivity | reflexivity | reflexivity | reflexivity | reflexivity
        | reflexivity | reflexivity].
Defined.

(** C6.  For every token and every setting of the two flags,
    [verify_jwt_token_strict] leaves the world (the two sets and the rows
    of both tables) exactly as it found it, and what it returns is the
    claim set [jwt.decode] produced, or a rejection. *)
Theorem verify_is_read_only cfg now token ca ci w :
  snd (verify_jwt_token_strict cfg now token ca ci w) = w /\
  ((exists payload,
      verify_jwt_token_strict cfg now token ca ci w = (Ok payload, w) /\
      jwt.decode now token (PUBLIC_KEY cfg) [ALGORITHM] (audience_arg cfg ca)
        = Ok payload) \/
   (exists e, verify_jwt_token_strict cfg now token ca ci w = (Raise e, w))).
Proof.
  pose proof (verify_world cfg now token ca ci w) as Hw.
  split; [exact Hw|].
  destruct (verify_jwt_token_strict cfg now token ca ci w) as [[p|e] w'] eqn:Hv;
    cbn [snd] in Hw; subst w'.
  - left. exists p. split; [reflexivity|].
    apply (verify_Ok_inv cfg now token ca ci w). rewrite Hv. reflexivity.
  - right. exists e. reflexivity.
Qed.

(** ** The claims of issued tokens *)

(** C7 as stated fails: a refresh token carries [user_id]. *)
Lemma refresh_token_carries_user_id :
  create_refresh_token_for_user default_cfg "jti-R" 1000 (Some alice) (Some get_db) None
    (snd (create_access_token_for_user default_cfg "jti-A" 1000 (Some alice)
            (Some get_db) None None world0))
    = (Ok {| token := token_R; jti := "jti-R"; exp := 2593000 |}, world_login) /\
  dict_contains (claims_of token_R) "user_id" = true /\
  dict_get (claims_of token_R) "user_id" = VInt 1.
Proof. vm_compute. repeat split; reflexivity. Qed.

(** C7, amended.  The claim set of every issued refresh token carries none
    of [permissions], [role], [email] and [name] (the display name), which
    every access token issued without overrides carries; it does carry
    [user_id], the user's id, like the access token. *)
Theorem refresh_claims_fields
    cfg uuid now user db expires_days w issued w1
    uuid' now' user' db' expires_minutes w' issued' w1' :
  create_refresh_token_for_user cfg uuid now user db expires_days w = (Ok issued, w1) ->
  create_access_token_for_user cfg uuid' now' user' db' None expires_minutes w'
    = (Ok issued', w1') ->
  (dict_contains (claims_of (token issued)) "permissions" = false /\
   dict_contains (claims_of (token issued)) "role" = false /\
   dict_contains (claims_of (token issued)) "email" = false /\
   dict_contains (claims_of (token issued)) "name" = false /\
   dict_get (claims_of (token issued)) "type" = VStr "refresh" /\
   exists u, user = Some u /\
     dict_contains (claims_of (token issued)) "user_id" = true /\
     dict_get (claims_of (token issued)) "user_id" = VInt (User.id u)) /\
  (dict_contains (claims_of (token issued')) "permissions" = true /\
   dict_contains (claims_of (token issued')) "role" = true /\
   dict_contains (claims_of (token issued')) "email" = true /\
   dict_contains (claims_of (token issued')) "name" = true /\
   dict_contains (claims_of (token issued')) "user_id" = true /\
   dict_get (claims_of (token issued')) "type" = VStr "access").
Proof.
  intros Hr Ha. split.
  - unfold create_refresh_token_for_user in Hr.
    destruct user as [u|], db as [d|]; try discriminate.
    unfold_M. destruct (utcnow_plus _ _) as [expires|]; [|discriminate].
    destruct (add_token_commit _ _ _ _ _ _) as [[[]|e] w0]; [|discriminate].
    injection Hr as <- _. cbn. repeat split. exists u. repeat split.
  - unfold create_access_token_for_user in Ha.
    destruct user' as [u|], db' as [d|]; try discriminate.
    unfold_M. destruct (utcnow_plus _ _) as [expires|]; [|discriminate].
    destruct (add_token_commit _ _ _ _ _ _) as [[[]|e] w0]; [|discriminate].
    injection Ha as <- _. cbn. repeat split.
Qed.

Lemma refresh_claims_fields_witness :
  dict_contains (claims_of token_R) "role" = false /\
  dict_contains (claims_of token_A) "role" = true.
Proof.
  destruct (refresh_claims_fields
              default_cfg "jti-R" 1000 (Some alice) (Some get_db) None
              (snd (create_access_token_for_user default_cfg "jti-A" 1000 (Some alice)
                      (Some get_db) None None world0))
              {| token := token_R; jti := "jti-R"; exp := 2593000 |} world_login
              "jti-A" 1000 (Some alice) (Some get_db) None world0
              {| token := token_A; jti := "jti-A"; exp := 1900 |}
              (snd (create_access_token_for_user default_cfg "jti-A" 1000 (Some alice)
                      (Some get_db) None None world0)))
    as [(_ & Hr & _) (_ & Ha & _)]; [vm_compute; reflexivity | vm_compute; reflexivity |].
  split; [exact Hr | exact Ha].
Defined.

(** ** Revocation in the store *)

Lemma find_revoke_commit (l : list Token.t) r jti :
  find (fun x => String.eqb jti (Token.jti x)) l = Some r ->
  find (fun x => String.eqb jti (Token.jti x))
       (map (fun x => if Z.eqb (Token.id x) (Token.id r)
                      then Token.set_revoked x else x) l)
    = Some (Token.set_revoked r).
Proof.
  induction l as [|x l IH]; cbn [find map]; [discriminate|].
  destruct (String.eqb jti (Token.jti x)) eqn:Hx.
  - intros [= ->]. rewrite Z.eqb_refl. cbn [Token.set_revoked Token.jti]. rewrite Hx.
    reflexivity.
  - intros H. destruct (Z.eqb _ _); cbn [Token.set_revoked Token.jti]; rewrite Hx;
      apply IH; exact H.
Qed.

(** C8.  [admin_revoke] on a token id whose row is already revoked, by an
    authenticated administrator, raises nothing: it answers with its
    redirect, and afterwards the row's [revoked] flag is still true.  The
    revocation index is not touched. *)
Theorem admin_revoke_again cfg now token_jti request db w payload r :
  fst (verify_jwt_token_strict cfg now (cookies_get request "access_token") true true w)
    = Ok payload ->
  dict_get payload "role" = VStr "admin" ->
  record_of w token_jti = Some r ->
  Token.revoked r = true ->
  exists w',
    admin_revoke cfg now token_jti request db w
      = (Ok (RedirectResponse "/admin/tokens" 302 []), w') /\
    option_map Token.revoked (record_of w' token_jti) = Some true /\
    _revoked_jtis w' = _revoked_jtis w /\
    _valid_refresh_jtis w' = _valid_refresh_jtis w.
Proof.
  intros Hv Hrole Hrec Hrev. unfold admin_revoke.
  destruct (truthy (cookies_get request "access_token")) eqn:Ht.
  2:{ rewrite verify_missing in Hv by exact Ht. discriminate. }
  cbn [negb]. unfold_M.
  pose proof (verify_world cfg now (cookies_get request "access_token") true true w) as Hw.
  destruct (verify_jwt_token_strict _ _ _ _ _ _) as [res w0].
  cbn [fst snd] in Hv, Hw. subst res w0.
  rewrite Hrole. cbn [value_is_str String.eqb Ascii.eqb Bool.eqb negb].
  unfold query_token_by_jti, revoke_commit. unfold_M. cbn [value_is_str].
  unfold record_of in Hrec. rewrite Hrec.
  eexists. split; [reflexivity|].
  unfold record_of. cbn [with_tokens tokens _revoked_jtis _valid_refresh_jtis].
  rewrite (find_revoke_commit _ r) by exact Hrec. repeat split.
Qed.

Lemma admin_revoke_again_witness :
  option_map Token.revoked (record_of world_revoked_once "jti-R") = Some true /\
  fst (admin_revoke default_cfg 1002 "jti-R" request_admin get_db world_revoked_once)
    = Ok (RedirectResponse "/admin/tokens" 302 []).
Proof.
  split; [vm_compute; reflexivity|].
  destruct (admin_revoke_again default_cfg 1002 "jti-R" request_admin get_db
              world_revoked_once (claims_of token_ADM)
              (Token.mk 2 1 "jti-R" "refresh" 2593000 true 1000 None))
    as (w' & -> & _);
    [vm_compute; reflexivity | reflexivity | vm_compute; reflexivity | reflexivity
    | reflexivity].
Defined.

(** ** Issue, then verify *)

Lemma existsb_jti_fresh (l : list Token.t) uuid :
  find (fun r => String.eqb uuid (Token.jti r)) l = None ->
  existsb (fun r => String.eqb (Token.jti r) uuid) l = false.
Proof.
  induction l as [|x l IH]; cbn [find existsb]; [reflexivity|].
  rewrite (String.eqb_sym (Token.jti x) uuid).
  destruct (String.eqb uuid (Token.jti x)); [discriminate|]. exact IH.
Qed.

Lemma existsb_user_known (l : list User.t) u :
  In u l -> existsb (fun x => Z.eqb (User.id x) (User.id u)) l = true.
Proof.
  induction l as [|x l IH]; cbn [In existsb]; [tauto|].
  intros [->|H]; [rewrite Z.eqb_refl; reflexivity|].
  rewrite (IH H). apply orb_true_r.
Qed.

(** C9.  For every existing user, a call of [create_access_token_for_user]
    (no overrides) succeeds, and verifying the returned token, at once or
    at any time up to its expiry, succeeds with a claim set whose [sub] is
    [user_<id>], whose [user_id] is the user's id and whose [permissions]
    are the user's permissions, [read_post] alone when the user has none.
    The two key files are the halves of one pair, the lifetime is not
    negative, the expiry is a date a [datetime] can hold (no later than the
    end of the year 9999; beyond it line 74 raises [OverflowError]), and the
    id drawn from [uuid4()] is fresh. *)
Theorem issue_access_then_verify cfg uuid now now' user expires_minutes w :
  PRIVATE_KEY cfg = PUBLIC_KEY cfg ->
  In user (users w) ->
  record_of w uuid = None ->
  uuid ∉ _revoked_jtis w ->
  datetime_min <= now ->
  now + 60 * int_or expires_minutes (ACCESS_TOKEN_EXP_MIN cfg) <= datetime_max ->
  now <= now' <= now + 60 * int_or expires_minutes (ACCESS_TOKEN_EXP_MIN cfg) ->
  exists issued w1 payload,
    create_access_token_for_user cfg uuid now (Some user) (Some get_db) None
      expires_minutes w = (Ok issued, w1) /\
    verify_jwt_token_strict cfg now' (Some (token issued)) true true w1
      = (Ok payload, w1) /\
    dict_get payload "sub" = VStr (user_sub (User.id user)) /\
    dict_get payload "user_id" = VInt (User.id user) /\
    dict_get payload "permissions" =
      VList (match User.permissions user with
             | [] => [VStr "read_post"]
             | ps => map (fun perm => VStr (UserPermission.permission perm)) ps
             end).
Proof.
  intros Hkey Hin Hfresh Hrev Hmin Hmax Hnow.
  unfold create_access_token_for_user, add_token_commit. unfold_M.
  rewrite utcnow_plus_fits by lia.
  unfold record_of in Hfresh.
  rewrite (existsb_jti_fresh _ _ Hfresh), (existsb_user_known _ _ Hin). cbn [negb].
  do 3 eexists. split; [reflexivity|]. cbn [token].
  split.
  - erewrite verify_decode_ok.
    2:{ cbn [audience_arg]. unfold jwt.encode. rewrite decode_well_signed.
        2:{ split; [reflexivity|]. cbn [jws_signer]. rewrite Hkey. reflexivity. }
        cbn [jws_payload]. unfold jwt._validate_claims, jwt._validate_iat,
          jwt._validate_nbf, jwt._validate_exp, jwt._validate_aud, jwt._validate_sub,
          jwt._validate_jti, jwt._validate_at_hash. cbn.
        destruct (Z.ltb_spec now' now); [lia|].
        destruct (Z.ltb_spec
                    (now + 60 * int_or expires_minutes (ACCESS_TOKEN_EXP_MIN cfg)) now');
          [lia|].
        rewrite String.eqb_refl. cbn. reflexivity. }
    cbn. rewrite String.eqb_refl. cbn.
    rewrite bool_decide_eq_false_2 by exact Hrev. reflexivity.
  - cbn. repeat split. destruct (User.permissions user); reflexivity.
Qed.

Lemma issue_access_then_verify_witness :
  exists payload,
    verify_jwt_token_strict default_cfg 1000 (Some token_A) true true
      (snd (create_access_token_for_user default_cfg "jti-A" 1000 (Some alice)
              (Some get_db) None None world0))
      = (Ok payload,
         snd (create_access_token_for_user default_cfg "jti-A" 1000 (Some alice)
                (Some get_db) None None world0)) /\
    dict_get payload "sub" = VStr "user_1" /\
    dict_get payload "user_id" = VInt 1 /\
    dict_get payload "permissions" = VList [VStr "read_post"].
Proof.
  destruct (issue_access_then_verify default_cfg "jti-A" 1000 1000 alice None world0)
    as (issued & w1 & payload & Hc & Hv & Hsub & Hid & Hperm);
    [reflexivity | left; reflexivity | reflexivity
    | apply (bool_decide_eq_false_1 ("jti-A" ∈ _revoked_jtis world0));
      vm_compute; reflexivity
    | unfold datetime_min; lia
    | unfold datetime_max; cbn; lia
    | cbn; lia |].
  vm_compute in Hc. injection Hc as <- <-.
  exists payload.
  split; [exact Hv|]. split; [exact Hsub|]. split; [exact Hid|exact Hperm].
Defined.

(** ** Logout *)

(** C10.  [logout] with a [refresh_token] cookie present and the
    [access_token] cookie absent or not decodable: the failed decode of the
    access token leaves the whole revocation block undone, so the world,
    and in it the row of either token, is unchanged; the endpoint raises
    nothing and answers with the redirect that deletes both cookies. *)
Theorem logout_without_access_cookie cfg now request db w :
  truthy (cookies_get request "refresh_token") = true ->
  (cookies_get request "access_token" = None \/
   exists e, jwt.decode now (cookies_get request "access_token") (PUBLIC_KEY cfg)
               [ALGORITHM] (Some (AUDIENCE cfg)) = Raise e) ->
  logout cfg now request db w
    = (Ok (RedirectResponse "/" 302 ["access_token"; "refresh_token"]), w).
Proof.
  intros Ht Ha.
  assert (He : exists e, jwt.decode now (cookies_get request "access_token")
                           (PUBLIC_KEY cfg) [ALGORITHM] (Some (AUDIENCE cfg)) = Raise e).
  { destruct Ha as [->|Ha]; [eexists; reflexivity|exact Ha]. }
  destruct He as [e He].
  unfold logout. rewrite Ht. unfold_M. rewrite He.
  destruct (jwt.decode now (cookies_get request "refresh_token") _ _ _); reflexivity.
Qed.

Lemma logout_without_access_cookie_witness :
  truthy (cookies_get request_refresh_only "refresh_token") = true /\
  cookies_get request_refresh_only "access_token" = None /\
  logout default_cfg 1002 request_refresh_only get_db world_login
    = (Ok (RedirectResponse "/" 302 ["access_token"; "refresh_token"]), world_login).
Proof.
  split; [reflexivity|]. split; [reflexivity|].
  apply (logout_without_access_cookie default_cfg 1002 request_refresh_only get_db
           world_login); [reflexivity | left; reflexivity].
Defined.

(** * Beyond the claims *)

#[local] Set Warnings "-clear-no-such-hyp".

(** ** Every call is a sequence of elementary changes *)

Lemma create_access_effect cfg uuid now user db extra expires_minutes w :
  rtc effect w (snd (create_access_token_for_user cfg uuid now user db extra
                       expires_minutes w)).
Proof.
  unfold create_access_token_for_user.
  destruct user as [u|], db as [d|]; try apply rtc_refl.
  unfold add_token_commit. unfold_M.
  destruct (utcnow_plus _ _) as [expires|]; [|apply rtc_refl].
  destruct (existsb _ (tokens w)) eqn:Hj; [apply rtc_refl|].
  destruct (negb _); [apply rtc_refl|].
  cbn [snd]. apply rtc_once. apply effect_issue_access. exact Hj.
Qed.

Lemma create_refresh_effect cfg uuid now user db expires_days w :
  rtc effect w (snd (create_refresh_token_for_user cfg uuid now user db
                       expires_days w)).
Proof.
  unfold create_refresh_token_for_user.
  destruct user as [u|], db as [d|]; try apply rtc_refl.
  unfold add_token_commit. unfold_M.
  destruct (utcnow_plus _ _) as [expires|]; [|apply rtc_refl].
  destruct (existsb _ (tokens w)) eqn:Hj; [apply rtc_refl|].
  destruct (negb _); [apply rtc_refl|].
  cbn [snd]. apply rtc_once. apply effect_issue_refresh. exact Hj.
Qed.

Lemma refresh_token_effect cfg ua ur now request db w :
  rtc effect w (snd (refresh_token cfg ua ur now request db w)).
Proof.
  unfold refresh_token. unfold_M.
  destruct (negb _); [apply rtc_refl|].
  match goal with |- context [verify_jwt_token_strict ?c ?n ?t ?a ?i ?w] =>
    pose proof (verify_world c n t a i w) as Hw;
    destruct (verify_jwt_token_strict c n t a i w) as [[p|e] w'] end;
    cbn in Hw; subst w'; [|apply rtc_refl].
  destruct (negb (value_is_str _ _)); [apply rtc_refl|].
  destruct (dict_get p "jti") as [| | |j|] eqn:Hj; cbn [set_contains];
    try apply rtc_refl.
  destruct (bool_decide (j ∈ _valid_refresh_jtis w)) eqn:Hin; cbn [negb];
    [|apply rtc_refl].
  apply bool_decide_eq_true_1 in Hin.
  assert (He : effect w (mkWorld ({[j]} ∪ _revoked_jtis w) (_valid_refresh_jtis w ∖ {[j]})
                                 (users w) (tokens w))) by (apply effect_retire; exact Hin).
  unfold discard_valid_refresh, add_revoked, query_user_by_id,
    create_access_token_for_user. unfold_M.
  cbn [with_valid_refresh_jtis with_revoked_jtis _revoked_jtis _valid_refresh_jtis
       users tokens].
  repeat case_match; simplify_eq/=; apply rtc_once; exact He.
Qed.

Lemma revoke_commit_effect r w : effect w (snd (revoke_commit r w)).
Proof. unfold revoke_commit, modify. cbn [snd]. apply effect_mark. Qed.

Lemma logout_effect cfg now request db w :
  rtc effect w (snd (logout cfg now request db w)).
Proof.
  unfold logout. unfold_M.
  destruct (truthy _); [|apply rtc_refl].
  destruct (jwt.decode now (cookies_get request "refresh_token") _ _ _);
    [|apply rtc_refl].
  destruct (jwt.decode now (cookies_get request "access_token") _ _ _);
    [|apply rtc_refl].
  unfold query_token_by_jti, revoke_commit. unfold_M.
  destruct (find _ (tokens w)) as [r1|]; destruct (find _ (tokens w)) as [r2|];
    cbn [snd fst].
  - eapply rtc_l; [apply (effect_mark w (Token.id r1))|].
    apply rtc_once. apply effect_mark.
  - apply rtc_once. apply effect_mark.
  - apply rtc_once. apply effect_mark.
  - apply rtc_refl.
Qed.

Lemma admin_revoke_effect cfg now token_jti request db w :
  rtc effect w (snd (admin_revoke cfg now token_jti request db w)).
Proof.
  unfold admin_revoke. unfold_M.
  destruct (negb _); [apply rtc_refl|].
  pose proof (verify_world cfg now (cookies_get request "access_token") true true w) as Hw.
  destruct (verify_jwt_token_strict _ _ _ _ _ _) as [[p|e] w']; cbn in Hw; subst w';
    [|apply rtc_refl].
  destruct (negb _); [apply rtc_refl|].
  unfold query_token_by_jti. unfold_M.
  destruct (find _ (tokens w)) as [r|]; [|apply rtc_refl].
  unfold revoke_commit, modify. cbn [snd]. apply rtc_once. apply effect_mark.
Qed.

Lemma after_effect cfg c w : rtc effect w (after cfg c w).
Proof.
  destruct c; cbn [after].
  - apply create_access_effect.
  - apply create_refresh_effect.
  - rewrite verify_world. apply rtc_refl.
  - apply refresh_token_effect.
  - apply logout_effect.
  - apply admin_revoke_effect.
Qed.

Lemma register_user_effect get_password_hash now username password db w :
  rtc effect w (snd (register_user get_password_hash now username password db w)).
Proof.
  unfold register_user, query_user_by_username, add_user_commit. unfold_M.
  destruct (find _ (users w)) eqn:Hf; [apply rtc_refl|].
  cbn [snd]. apply rtc_once. apply effect_register; [exact Hf|reflexivity].
Qed.

Lemma login_user_effect cfg verify_password ua ur now username password db w :
  rtc effect w (snd (login_user cfg verify_password ua ur now username password db w)).
Proof.
  unfold login_user, query_user_by_username. unfold_M.
  destruct (find _ (users w)) as [u|]; [|apply rtc_refl].
  destruct (negb _); [apply rtc_refl|].
  pose proof (create_access_effect cfg ua now (Some u) (Some db) None None w) as Ha.
  destruct (create_access_token_for_user _ _ _ _ _ _ _ w) as [[a|e] w1];
    cbn [snd] in *; [|exact Ha].
  pose proof (create_refresh_effect cfg ur now (Some u) (Some db) None w1) as Hr.
  destruct (create_refresh_token_for_user _ _ _ _ _ _ w1) as [[r|e] w2];
    cbn [snd] in *; etrans; eassumption.
Qed.

Lemma protected_world cfg now request authorization w :
  snd (protected cfg now request authorization w) = w.
Proof.
  unfold protected. unfold_M.
  destruct (negb _); [reflexivity|].
  match goal with |- context [verify_jwt_token_strict ?c ?n ?t ?a ?i ?w] =>
    pose proof (verify_world c n t a i w) as Hw;
    destruct (verify_jwt_token_strict c n t a i w) as [[p|e] w'] end;
    cbn in Hw; subst w'; reflexivity.
Qed.

Lemma after_op_effect cfg gph vp o w : rtc effect w (after_op cfg gph vp o w).
Proof.
  destruct o; cbn [after_op].
  - apply after_effect.
  - apply register_user_effect.
  - apply login_user_effect.
  - rewrite protected_world. apply rtc_refl.
Qed.

Lemma after_ops_effect cfg gph vp os w : rtc effect w (after_ops cfg gph vp os w).
Proof.
  unfold after_ops. revert w. induction os as [|o os IH]; intros w; cbn [fold_left].
  - apply rtc_refl.
  - etrans; [apply (after_op_effect cfg gph vp o w)|apply IH].
Qed.

(** ** What every reachable world satisfies *)

Lemma existsb_jti_false (ts : list Token.t) jti :
  existsb (fun r => String.eqb (Token.jti r) jti) ts = false ->
  jti ∉ map Token.jti ts.
Proof.
  induction ts as [|x ts IH]; cbn [existsb map]; intros H.
  - apply not_elem_of_nil.
  - apply orb_false_iff in H as [Hx Hts]. apply not_elem_of_cons. split.
    + intros ->. rewrite String.eqb_refl in Hx. discriminate.
    + apply IH. exact Hts.
Qed.

Lemma mark_row_le id r :
  row_le r (if Z.eqb (Token.id r) id then Token.set_revoked r else r).
Proof. destruct (Z.eqb _ _); destruct r; cbn; repeat split; auto. Qed.

Lemma map_mark_jti id (ts : list Token.t) :
  map Token.jti (map (fun r => if Z.eqb (Token.id r) id
                               then Token.set_revoked r else r) ts)
  = map Token.jti ts.
Proof.
  rewrite map_map. apply map_ext. intros r. destruct (Z.eqb _ _); reflexivity.
Qed.

Lemma consistent_started us : consistent (started us).
Proof.
  split; cbn.
  - intros i r H. rewrite lookup_nil in H. discriminate.
  - constructor.
  - intros j H. exfalso. set_solver.
  - set_solver.
Qed.

Lemma consistent_effect w w' : consistent w -> effect w w' -> consistent w'.
Proof.
  intros [Hid Hu Hin Hap] He. destruct He as [uid jti ea now Hf|uid jti ea now Hf|j Hj|id|u _ _].
  - apply existsb_jti_false in Hf. split; cbn.
    + intros i r H. apply lookup_app_Some in H as [H|[Hle H]]; [apply Hid; exact H|].
      apply list_lookup_singleton_Some in H as [Hi <-]. cbn. lia.
    + rewrite map_app. cbn [map]. apply NoDup_app. split; [exact Hu|]. split.
      * intros x Hx Hx'. apply list_elem_of_singleton in Hx'. subst x. exact (Hf Hx).
      * apply NoDup_singleton.
    + intros j Hj. destruct (Hin j Hj) as (r & Hr & Hrj & Hrt).
      exists r. split; [apply elem_of_app; left; exact Hr|]. auto.
    + exact Hap.
  - apply existsb_jti_false in Hf.
    assert (Hfresh : jti ∉ _valid_refresh_jtis w ∪ _revoked_jtis w).
    { intros Hj. destruct (Hin jti Hj) as (r & Hr & Hrj & _). apply Hf.
      rewrite <- Hrj. apply list_elem_of_In, in_map, list_elem_of_In. exact Hr. }
    split; cbn.
    + intros i r H. apply lookup_app_Some in H as [H|[Hle H]]; [apply Hid; exact H|].
      apply list_lookup_singleton_Some in H as [Hi <-]. cbn. lia.
    + rewrite map_app. cbn [map]. apply NoDup_app. split; [exact Hu|]. split.
      * intros x Hx Hx'. apply list_elem_of_singleton in Hx'. subst x. exact (Hf Hx).
      * apply NoDup_singleton.
    + intros j Hj.
      destruct (decide (j = jti)) as [->|Hne].
      * eexists. split; [apply elem_of_app; right; apply list_elem_of_singleton;
                          reflexivity|]. cbn. auto.
      * destruct (Hin j) as (r & Hr & Hrj & Hrt); [set_solver|].
        exists r. split; [apply elem_of_app; left; exact Hr|]. auto.
    + set_solver.
  - split; cbn; [exact Hid|exact Hu| |set_solver].
    intros j' Hj'. apply Hin. set_solver.
  - split; cbn.
    + intros i r H. change (map ?f ?l) with (f <$> l) in H.
      rewrite list_lookup_fmap in H.
      destruct (tokens w !! i) as [r0|] eqn:H0; [|discriminate].
      cbn in H. injection H as <-. rewrite <- (Hid i r0 H0).
      apply (mark_row_le id r0).
    + rewrite map_mark_jti. exact Hu.
    + intros j Hj. destruct (Hin j Hj) as (r & Hr & Hrj & Hrt).
      exists (if Z.eqb (Token.id r) id then Token.set_revoked r else r).
      split.
      { apply list_elem_of_In.
        apply (in_map (fun r => if Z.eqb (Token.id r) id
                                then Token.set_revoked r else r)).
        apply list_elem_of_In. exact Hr. }
      destruct (mark_row_le id r) as (_ & _ & -> & -> & _). auto.
    + exact Hap.
  - split; cbn; assumption.
Qed.

Lemma consistent_effects w w' : consistent w -> rtc effect w w' -> consistent w'.
Proof. intros Hc H. induction H; [exact Hc|]. eauto using consistent_effect. Qed.

(** X1.  Whatever a client calls, in whatever order, the world stays
    consistent: the rows of the token table stay numbered in order, no two
    rows share a [jti], every id in [_valid_refresh_jtis] and in
    [_revoked_jtis] is the [jti] of a stored refresh token, and no id is in
    both sets. *)
Theorem reachable_worlds_are_consistent cfg gph vp os w :
  consistent w -> consistent (after_ops cfg gph vp os w).
Proof.
  intros Hc. apply (consistent_effects w); [exact Hc|]. apply after_ops_effect.
Qed.

Lemma reachable_worlds_are_consistent_witness :
  consistent
    (after_ops default_cfg toy_hash toy_verify
       [OpRegister 900 "bob" "secret"; OpLogin "jti-B" "jti-S" 950 "bob" "secret";
        OpCore (CallRefresh "jti-B2" "jti-S2" 960
                  {| cookies := []; bearer := Raw EmptyString |})]
       (started [alice; root_admin])).
Proof.
  apply (reachable_worlds_are_consistent default_cfg toy_hash toy_verify).
  apply consistent_started.
Defined.

Lemma verify_Revoked_inv cfg now token ca ci w :
  fst (verify_jwt_token_strict cfg now token ca ci w) = Raise Revoked ->
  exists payload j,
    jwt.decode now token (PUBLIC_KEY cfg) [ALGORITHM] (audience_arg cfg ca) = Ok payload /\
    dict_get payload "jti" = VStr j /\ j ∈ _revoked_jtis w.
Proof.
  intros H. destruct (Revoked_only_after_decode _ _ _ _ _ _ H) as [p Hd].
  rewrite (verify_decode_ok _ _ _ _ _ _ p Hd) in H. cbn [fst] in H.
  destruct (ci && _); [discriminate|].
  destruct (dict_get p "jti") as [| | |j|] eqn:Hj; cbn [set_contains] in H;
    try discriminate.
  destruct (bool_decide (j ∈ _revoked_jtis w)) eqn:Hin; [|discriminate].
  exists p, j. split; [exact Hd|]. split; [exact Hj|].
  apply bool_decide_eq_true_1 in Hin. exact Hin.
Qed.

Lemma same_jti_same_row (ts : list Token.t) r r' :
  NoDup (map Token.jti ts) -> r ∈ ts -> r' ∈ ts -> Token.jti r = Token.jti r' ->
  r = r'.
Proof.
  induction ts as [|x ts IH]; cbn [map]; intros Hnd Hr Hr' Hj.
  - apply elem_of_nil in Hr. contradiction.
  - apply NoDup_cons in Hnd as [Hx Hnd].
    apply elem_of_cons in Hr as [->|Hr]; apply elem_of_cons in Hr' as [->|Hr'].
    + reflexivity.
    + exfalso. apply Hx. rewrite Hj. apply list_elem_of_In, in_map, list_elem_of_In.
      exact Hr'.
    + exfalso. apply Hx. rewrite <- Hj. apply list_elem_of_In, in_map, list_elem_of_In.
      exact Hr.
    + apply IH; assumption.
Qed.

(** A restart keeps the world consistent: the tables are what they were
    and the two sets are empty. *)
Lemma consistent_restarted w : consistent w -> consistent (restarted w).
Proof.
  intros [Hid Hu _ _]. split; cbn.
  - exact Hid.
  - exact Hu.
  - intros j H. exfalso. set_solver.
  - set_solver.
Qed.

(** X2.  From any consistent world on (a process that has just started,
    with empty sets, on a database that holds the rows of earlier runs, is
    one), no token whose [jti] is that of a stored access token is ever
    reported [Revoked], whatever has been called before: only ids of
    refresh tokens reach [_revoked_jtis]. *)
Theorem access_token_is_never_Revoked cfg gph vp os w now jw ca ci r :
  consistent w ->
  r ∈ tokens (after_ops cfg gph vp os w) ->
  Token.token_type r = "access" ->
  dict_get (jws_payload jw) "jti" = VStr (Token.jti r) ->
  fst (verify_jwt_token_strict cfg now (Some (Compact jw)) ca ci
         (after_ops cfg gph vp os w)) <> Raise Revoked.
Proof.
  intros Hc Hr Hty Hj H.
  pose proof (consistent_effects w _ Hc (after_ops_effect cfg gph vp os w))
    as [_ Hu Hin _].
  apply verify_Revoked_inv in H as (p & j & Hd & Hpj & Hrev).
  apply decode_Ok_inv in Hd as (j' & [= <-] & <- & _).
  rewrite Hj in Hpj. injection Hpj as <-.
  destruct (Hin (Token.jti r)) as (r' & Hr' & Hj' & Hty'); [set_solver|].
  rewrite (same_jti_same_row _ r r' Hu Hr Hr' (eq_sym Hj')) in Hty.
  rewrite Hty in Hty'. discriminate.
Qed.

Lemma access_token_is_never_Revoked_witness :
  consistent (restarted world_login) /\
  Token.mk 1 1 "jti-A" "access" 1900 true 1000 None
    ∈ tokens (after_ops default_cfg toy_hash toy_verify
                [OpCore (CallRefresh "jti-A2" "jti-R2" 1001 request_R);
                 OpCore (CallLogout 1002 request_R)]
                (restarted world_login)) /\
  fst (verify_jwt_token_strict default_cfg 1003
         (Some (Compact {| jws_alg := "RS256"; jws_payload := claims_of token_A;
                           jws_signer := Some 1%N |})) true true
         (after_ops default_cfg toy_hash toy_verify
            [OpCore (CallRefresh "jti-A2" "jti-R2" 1001 request_R);
             OpCore (CallLogout 1002 request_R)]
            (restarted world_login))) <> Raise Revoked.
Proof.
  assert (Hc : consistent (restarted world_login)).
  { apply consistent_restarted.
    apply (consistent_effects (started [alice; root_admin]));
      [apply consistent_started|].
    change world_login with
      (after_ops default_cfg toy_hash toy_verify
         [OpCore (CallCreateAccess "jti-A" 1000 (Some alice) (Some get_db) None None);
          OpCore (CallCreateRefresh "jti-R" 1000 (Some alice) (Some get_db) None)]
         (started [alice; root_admin])).
    apply after_ops_effect. }
  assert (Hin : Token.mk 1 1 "jti-A" "access" 1900 true 1000 None
                  ∈ tokens (after_ops default_cfg toy_hash toy_verify
                              [OpCore (CallRefresh "jti-A2" "jti-R2" 1001 request_R);
                               OpCore (CallLogout 1002 request_R)]
                              (restarted world_login))).
  { apply list_elem_of_In. vm_compute. left. reflexivity. }
  split; [exact Hc|]. split; [exact Hin|].
  apply (access_token_is_never_Revoked default_cfg toy_hash toy_verify
           [OpCore (CallRefresh "jti-A2" "jti-R2" 1001 request_R);
            OpCore (CallLogout 1002 request_R)]
           (restarted world_login) 1003 _ true true
           (Token.mk 1 1 "jti-A" "access" 1900 true 1000 None));
    [exact Hc | exact Hin | reflexivity | reflexivity].
Defined.

(** ** Nothing is ever taken back *)

Lemma row_le_refl r : row_le r r.
Proof. repeat split; auto. Qed.

Lemma row_le_trans r1 r2 r3 : row_le r1 r2 -> row_le r2 r3 -> row_le r1 r3.
Proof.
  intros (A1 & A2 & A3 & A4 & A5 & A6 & A7 & A8) (B1 & B2 & B3 & B4 & B5 & B6 & B7 & B8).
  repeat split; try congruence. auto.
Qed.

Lemma effect_keeps w w' :
  effect w w' ->
  (forall i r, tokens w !! i = Some r ->
     exists r', tokens w' !! i = Some r' /\ row_le r r') /\
  (forall i u, users w !! i = Some u -> users w' !! i = Some u) /\
  _revoked_jtis w ⊆ _revoked_jtis w'.
Proof.
  intros He. destruct He; cbn; split_and!; try (intros; assumption); try set_solver.
  - intros i r Hl. exists r. split; [apply lookup_app_l_Some; exact Hl|apply row_le_refl].
  - intros i r Hl. exists r. split; [apply lookup_app_l_Some; exact Hl|apply row_le_refl].
  - intros i r Hl. exists r. split; [exact Hl|apply row_le_refl].
  - intros i r Hl. eexists. split; [|apply (mark_row_le id r)].
    change (map ?f ?l) with (f <$> l). rewrite list_lookup_fmap, Hl. reflexivity.
  - intros i r Hl. exists r. split; [exact Hl|apply row_le_refl].
  - intros i u' Hl. apply lookup_app_l_Some. exact Hl.
Qed.

Lemma effects_keep w w' :
  rtc effect w w' ->
  (forall i r, tokens w !! i = Some r ->
     exists r', tokens w' !! i = Some r' /\ row_le r r') /\
  (forall i u, users w !! i = Some u -> users w' !! i = Some u) /\
  _revoked_jtis w ⊆ _revoked_jtis w'.
Proof.
  intros H. induction H as [w|w w1 w2 He _ (IH1 & IH2 & IH3)].
  - split_and!; [|auto|reflexivity]. intros i r H. exists r. split; [exact H|].
    apply row_le_refl.
  - destruct (effect_keeps _ _ He) as (E1 & E2 & E3). split_and!.
    + intros i r H. destruct (E1 i r H) as (r1 & H1 & L1).
      destruct (IH1 i r1 H1) as (r2 & H2 & L2). exists r2. split; [exact H2|].
      exact (row_le_trans _ _ _ L1 L2).
    + intros i u H. apply IH2, E2, H.
    + etrans; eassumption.
Qed.

(** X3.  No sequence of calls takes anything back: every row of the token
    table stays at its place with all its fields, except that [revoked]
    may have turned from false to true (never from true to false); every
    user stays; every id in [_revoked_jtis] stays in it. *)
Theorem nothing_is_taken_back cfg gph vp os w :
  (forall i r, tokens w !! i = Some r ->
     exists r', tokens (after_ops cfg gph vp os w) !! i = Some r' /\ row_le r r') /\
  (forall i u, users w !! i = Some u ->
     users (after_ops cfg gph vp os w) !! i = Some u) /\
  _revoked_jtis w ⊆ _revoked_jtis (after_ops cfg gph vp os w).
Proof. apply effects_keep, after_ops_effect. Qed.

Lemma nothing_is_taken_back_witness :
  exists r',
    tokens (after_ops default_cfg toy_hash toy_verify
              [OpCore (CallLogout 1002 request_R)] world_login) !! 1%nat = Some r' /\
    row_le (Token.mk 2 1 "jti-R" "refresh" 2593000 false 1000 None) r'.
Proof.
  destruct (nothing_is_taken_back default_cfg toy_hash toy_verify
              [OpCore (CallLogout 1002 request_R)] world_login) as (H & _ & _).
  apply (H 1%nat (Token.mk 2 1 "jti-R" "refresh" 2593000 false 1000 None)).
  vm_compute. reflexivity.
Defined.

(** ** What can change a verification *)

Lemma register_user_revoked gph now username password db w :
  _revoked_jtis (snd (register_user gph now username password db w)) = _revoked_jtis w.
Proof.
  unfold register_user, query_user_by_username, add_user_commit. unfold_M.
  destruct (find _ (users w)); reflexivity.
Qed.

Lemma login_user_revoked cfg vp ua ur now username password db w :
  _revoked_jtis (snd (login_user cfg vp ua ur now username password db w))
  = _revoked_jtis w.
Proof.
  unfold login_user, query_user_by_username. unfold_M.
  destruct (find _ (users w)) as [u|]; [|reflexivity].
  destruct (negb _); [reflexivity|].
  pose proof (create_access_revoked cfg ua now (Some u) (Some db) None None w) as Ha.
  destruct (create_access_token_for_user _ _ _ _ _ _ _ w) as [[a|e] w1];
    cbn [snd] in *; [|exact Ha].
  pose proof (create_refresh_revoked cfg ur now (Some u) (Some db) None w1) as Hr.
  destruct (create_refresh_token_for_user _ _ _ _ _ _ w1) as [[r|e] w2];
    cbn [snd] in *; congruence.
Qed.

(** X4.  Only the refresh endpoint can change what the verifier answers:
    after any other call (issuing, registering, logging in, logging out,
    an administrator's revocation), every token gets the answer it got
    before.  In particular neither [logout] nor [admin_revoke] makes the
    verifier refuse a token. *)
Theorem only_rotation_changes_verification cfg gph vp o w now token ca ci :
  (forall ua ur n request, o <> OpCore (CallRefresh ua ur n request)) ->
  fst (verify_jwt_token_strict cfg now token ca ci (after_op cfg gph vp o w))
  = fst (verify_jwt_token_strict cfg now token ca ci w).
Proof.
  intros Hno. apply verify_depends_on_revoked.
  destruct o as [c| | |]; cbn [after_op].
  - destruct c; cbn [after].
    + apply create_access_revoked.
    + apply create_refresh_revoked.
    + rewrite verify_world. reflexivity.
    + exfalso. eapply Hno. reflexivity.
    + apply logout_revoked.
    + apply admin_revoke_revoked.
  - apply register_user_revoked.
  - apply login_user_revoked.
  - rewrite protected_world. reflexivity.
Qed.

Lemma only_rotation_changes_verification_witness :
  option_map Token.revoked
    (record_of (after_op default_cfg toy_hash toy_verify
                  (OpCore (CallAdminRevoke 1001 "jti-R" request_admin)) world_admin)
       "jti-R") = Some true /\
  fst (verify_jwt_token_strict default_cfg 1002 (Some token_R) true true
         (after_op default_cfg toy_hash toy_verify
            (OpCore (CallAdminRevoke 1001 "jti-R" request_admin)) world_admin))
  = Ok (claims_of token_R).
Proof.
  split; [vm_compute; reflexivity|].
  rewrite (only_rotation_changes_verification default_cfg toy_hash toy_verify
             (OpCore (CallAdminRevoke 1001 "jti-R" request_admin)) world_admin 1002
             (Some token_R) true true); [vm_compute; reflexivity|].
  intros ua ur n request. discriminate.
Defined.

(** ** Issued tokens, in closed form *)

Lemma create_access_result cfg uuid now user db expires_minutes w :
  In user (users w) ->
  record_of w uuid = None ->
  datetime_min <= now <= datetime_max ->
  datetime_min <= now + 60 * int_or expires_minutes (ACCESS_TOKEN_EXP_MIN cfg)
    <= datetime_max ->
  create_access_token_for_user cfg uuid now (Some user) (Some db) None expires_minutes w
  = (Ok {| token := jwt.encode (access_claims cfg uuid now user expires_minutes)
                      (PRIVATE_KEY cfg) ALGORITHM;
           jti := uuid;
           exp := now + 60 * int_or expires_minutes (ACCESS_TOKEN_EXP_MIN cfg) |},
     with_tokens (fun ts =>
       (ts ++ [Token.mk (1 + Z.of_nat (length ts)) (User.id user) uuid "access"
                 (now + 60 * int_or expires_minutes (ACCESS_TOKEN_EXP_MIN cfg))
                 false now None])%list) w).
Proof.
  intros Hin Hfresh Hn Hs.
  unfold create_access_token_for_user, add_token_commit. unfold_M.
  rewrite (utcnow_plus_fits _ _ Hn Hs).
  unfold record_of in Hfresh.
  rewrite (existsb_jti_fresh _ _ Hfresh), (existsb_user_known _ _ Hin). reflexivity.
Qed.

Lemma create_refresh_result cfg uuid now user db expires_days w :
  In user (users w) ->
  record_of w uuid = None ->
  datetime_min <= now <= datetime_max ->
  datetime_min <= now + 86400 * int_or expires_days (REFRESH_TOKEN_EXP_DAYS cfg)
    <= datetime_max ->
  create_refresh_token_for_user cfg uuid now (Some user) (Some db) expires_days w
  = (Ok {| token := jwt.encode (refresh_claims cfg uuid now user expires_days)
                      (PRIVATE_KEY cfg) ALGORITHM;
           jti := uuid;
           exp := now + 86400 * int_or expires_days (REFRESH_TOKEN_EXP_DAYS cfg) |},
     with_valid_refresh_jtis (fun s => {[uuid]} ∪ s)
       (with_tokens (fun ts =>
          (ts ++ [Token.mk (1 + Z.of_nat (length ts)) (User.id user) uuid "refresh"
                    (now + 86400 * int_or expires_days (REFRESH_TOKEN_EXP_DAYS cfg))
                    false now None])%list) w)).
Proof.
  intros Hin Hfresh Hn Hs.
  unfold create_refresh_token_for_user, add_token_commit. unfold_M.
  rewrite (utcnow_plus_fits _ _ Hn Hs).
  unfold record_of in Hfresh.
  rewrite (existsb_jti_fresh _ _ Hfresh), (existsb_user_known _ _ Hin). reflexivity.
Qed.

(** The tokens this application issues decode, with the configured
    audience, from the moment of issue to their expiry. *)
Lemma decode_access_claims cfg uuid now now' user expires_minutes :
  PRIVATE_KEY cfg = PUBLIC_KEY cfg ->
  now <= now' <= now + 60 * int_or expires_minutes (ACCESS_TOKEN_EXP_MIN cfg) ->
  jwt.decode now'
    (Some (jwt.encode (access_claims cfg uuid now user expires_minutes)
             (PRIVATE_KEY cfg) ALGORITHM))
    (PUBLIC_KEY cfg) [ALGORITHM] (Some (AUDIENCE cfg))
  = Ok (access_claims cfg uuid now user expires_minutes).
Proof.
  intros Hkey Hnow. unfold jwt.encode. rewrite decode_well_signed.
  2:{ split; [reflexivity|]. cbn [jws_signer]. rewrite Hkey. reflexivity. }
  cbn [jws_payload]. unfold jwt._validate_claims, jwt._validate_iat,
    jwt._validate_nbf, jwt._validate_exp, jwt._validate_aud, jwt._validate_sub,
    jwt._validate_jti, jwt._validate_at_hash. cbn.
  destruct (Z.ltb_spec now' now); [lia|].
  destruct (Z.ltb_spec (now + 60 * int_or expires_minutes (ACCESS_TOKEN_EXP_MIN cfg)) now');
    [lia|].
  rewrite String.eqb_refl. reflexivity.
Qed.

Lemma decode_refresh_claims cfg uuid now now' user expires_days :
  PRIVATE_KEY cfg = PUBLIC_KEY cfg ->
  now <= now' <= now + 86400 * int_or expires_days (REFRESH_TOKEN_EXP_DAYS cfg) ->
  jwt.decode now'
    (Some (jwt.encode (refresh_claims cfg uuid now user expires_days)
             (PRIVATE_KEY cfg) ALGORITHM))
    (PUBLIC_KEY cfg) [ALGORITHM] (Some (AUDIENCE cfg))
  = Ok (refresh_claims cfg uuid now user expires_days).
Proof.
  intros Hkey Hnow. unfold jwt.encode. rewrite decode_well_signed.
  2:{ split; [reflexivity|]. cbn [jws_signer]. rewrite Hkey. reflexivity. }
  cbn [jws_payload]. unfold jwt._validate_claims, jwt._validate_iat,
    jwt._validate_nbf, jwt._validate_exp, jwt._validate_aud, jwt._validate_sub,
    jwt._validate_jti, jwt._validate_at_hash. cbn.
  destruct (Z.ltb_spec now' now); [lia|].
  destruct (Z.ltb_spec (now + 86400 * int_or expires_days (REFRESH_TOKEN_EXP_DAYS cfg))
              now'); [lia|].
  rewrite String.eqb_refl. reflexivity.
Qed.

(** A decoded token with the configured issuer and an id that is not in
    [_revoked_jtis] is accepted. *)
Lemma verify_accepts cfg now token w payload j :
  jwt.decode now token (PUBLIC_KEY cfg) [ALGORITHM] (Some (AUDIENCE cfg)) = Ok payload ->
  dict_get payload "iss" = VStr (ISSUER cfg) ->
  dict_get payload "jti" = VStr j ->
  j ∉ _revoked_jtis w ->
  verify_jwt_token_strict cfg now token true true w = (Ok payload, w).
Proof.
  intros Hd Hi Hj Hn. rewrite (verify_decode_ok cfg now token true true w payload Hd).
  rewrite Hi, Hj. cbn [value_is_str set_contains]. rewrite String.eqb_refl.
  rewrite bool_decide_eq_false_2 by exact Hn. reflexivity.
Qed.

Lemma find_app_fresh (ts : list Token.t) uuid row :
  find (fun r => String.eqb uuid (Token.jti r)) ts = None ->
  Token.jti row = uuid ->
  find (fun r => String.eqb uuid (Token.jti r)) (ts ++ [row]) = Some row.
Proof.
  intros Hf Hj. induction ts as [|x ts IH]; cbn [find app] in *.
  - rewrite Hj, String.eqb_refl. reflexivity.
  - destruct (String.eqb uuid (Token.jti x)); [discriminate|]. apply IH. exact Hf.
Qed.

(** X5.  For every existing user, [create_refresh_token_for_user] succeeds
    when the id drawn is fresh and the expiry is a date a [datetime] can
    hold (no later than the end of the year 9999; beyond it line 107 raises
    [OverflowError]): it stores one row of type [refresh], not revoked, that
    expires when the returned [exp] says; it enters the id into
    [_valid_refresh_jtis]; and the returned token verifies, from the moment
    of issue to its expiry, with the claims the function built. *)
Theorem issue_refresh_then_verify cfg uuid now now' user expires_days w :
  PRIVATE_KEY cfg = PUBLIC_KEY cfg ->
  In user (users w) ->
  record_of w uuid = None ->
  uuid ∉ _revoked_jtis w ->
  datetime_min <= now ->
  now + 86400 * int_or expires_days (REFRESH_TOKEN_EXP_DAYS cfg) <= datetime_max ->
  now <= now' <= now + 86400 * int_or expires_days (REFRESH_TOKEN_EXP_DAYS cfg) ->
  exists issued w1,
    create_refresh_token_for_user cfg uuid now (Some user) (Some get_db) expires_days w
      = (Ok issued, w1) /\
    jti issued = uuid /\
    verify_jwt_token_strict cfg now' (Some (token issued)) true true w1
      = (Ok (refresh_claims cfg uuid now user expires_days), w1) /\
    uuid ∈ _valid_refresh_jtis w1 /\
    record_of w1 uuid
      = Some (Token.mk (1 + Z.of_nat (length (tokens w))) (User.id user) uuid "refresh"
                (exp issued) false now None).
Proof.
  intros Hkey Hin Hfresh Hrev Hmin Hmax Hnow.
  rewrite (create_refresh_result cfg uuid now user get_db expires_days w Hin Hfresh)
    by lia.
  do 2 eexists. split; [reflexivity|]. cbn [jti token exp]. split; [reflexivity|].
  split_and!.
  - apply (verify_accepts _ _ _ _ _ uuid); [|reflexivity|reflexivity|exact Hrev].
    apply decode_refresh_claims; assumption.
  - cbn. set_solver.
  - unfold record_of in *. cbn [tokens with_valid_refresh_jtis with_tokens].
    apply find_app_fresh; [exact Hfresh|reflexivity].
Qed.

Lemma issue_refresh_then_verify_witness :
  exists issued w1,
    create_refresh_token_for_user default_cfg "jti-R" 1000 (Some alice) (Some get_db)
      None world0 = (Ok issued, w1) /\
    verify_jwt_token_strict default_cfg 2593000 (Some (token issued)) true true w1
      = (Ok (refresh_claims default_cfg "jti-R" 1000 alice None), w1) /\
    "jti-R" ∈ _valid_refresh_jtis w1.
Proof.
  destruct (issue_refresh_then_verify default_cfg "jti-R" 1000 2593000 alice None world0)
    as (issued & w1 & Hc & _ & Hv & Hin & _);
    [reflexivity | left; reflexivity | reflexivity
    | apply (bool_decide_eq_false_1 ("jti-R" ∈ _revoked_jtis world0));
      vm_compute; reflexivity
    | unfold datetime_min; lia
    | unfold datetime_max; cbn; lia
    | cbn; lia |].
  exists issued, w1. auto.
Defined.

(** X6.  Issuing is all or nothing: when an issuing call raises (a missing
    argument, an expiry no [datetime] can hold, an id that is already
    stored, a user that is not), the world is what it was; in particular no id reaches [_valid_refresh_jtis]
    without its row.  When the call returns, exactly one row has been
    appended. *)
Theorem issuing_is_all_or_nothing cfg uuid now user db extra expires_minutes
    expires_days w :
  (forall e,
     fst (create_access_token_for_user cfg uuid now user db extra expires_minutes w)
       = Raise e ->
     snd (create_access_token_for_user cfg uuid now user db extra expires_minutes w)
       = w) /\
  (forall e,
     fst (create_refresh_token_for_user cfg uuid now user db expires_days w) = Raise e ->
     snd (create_refresh_token_for_user cfg uuid now user db expires_days w) = w) /\
  (forall issued,
     fst (create_access_token_for_user cfg uuid now user db extra expires_minutes w)
       = Ok issued ->
     length (tokens (snd (create_access_token_for_user cfg uuid now user db extra
                            expires_minutes w))) = S (length (tokens w))) /\
  (forall issued,
     fst (create_refresh_token_for_user cfg uuid now user db expires_days w)
       = Ok issued ->
     length (tokens (snd (create_refresh_token_for_user cfg uuid now user db
                            expires_days w))) = S (length (tokens w))).
Proof.
  unfold create_access_token_for_user, create_refresh_token_for_user, add_token_commit.
  unfold_M.
  split_and!; intros x; destruct user as [u|], db as [d|]; try discriminate;
    try reflexivity;
    destruct (utcnow_plus _ _) as [expires|]; try reflexivity; try discriminate;
    destruct (existsb _ (tokens w)); try reflexivity; try discriminate;
    destruct (negb _); try reflexivity; try discriminate;
    intros _; cbn; rewrite length_app; cbn; lia.
Qed.

Lemma issuing_is_all_or_nothing_witness :
  fst (create_refresh_token_for_user default_cfg "jti-A" 1001 (Some alice) (Some get_db)
         None world_login)
    = Raise (IntegrityError "duplicate key value violates unique constraint") /\
  snd (create_refresh_token_for_user default_cfg "jti-A" 1001 (Some alice) (Some get_db)
         None world_login) = world_login.
Proof.
  split; [vm_compute; reflexivity|].
  destruct (issuing_is_all_or_nothing default_cfg "jti-A" 1001 (Some alice) (Some get_db)
              None None None world_login) as (_ & H & _).
  apply (H (IntegrityError "duplicate key value violates unique constraint")).
  vm_compute. reflexivity.
Defined.

(** ** The refresh endpoint, on every request *)

(** X7.  A call of [refresh_token] either leaves the world exactly as it
    was, or moves one id from [_valid_refresh_jtis] to [_revoked_jtis]
    and changes nothing else; it never writes a table. *)
Theorem refresh_token_only_retires cfg ua ur now request db w :
  snd (refresh_token cfg ua ur now request db w) = w \/
  exists j, j ∈ _valid_refresh_jtis w /\
    snd (refresh_token cfg ua ur now request db w)
    = mkWorld ({[j]} ∪ _revoked_jtis w) (_valid_refresh_jtis w ∖ {[j]})
              (users w) (tokens w).
Proof.
  destruct (fst (verify_jwt_token_strict cfg now (presented request) true true w))
    as [payload|e] eqn:Hv.
  - destruct (value_is_str (dict_get payload "type") "refresh") eqn:Hty.
    + destruct (dict_get payload "type") as [| | |ty|] eqn:Hty'; try discriminate.
      cbn [value_is_str] in Hty. apply String.eqb_eq in Hty. subst ty.
      destruct (dict_get payload "jti") as [| | |j|] eqn:Hj.
      4:{ destruct (decide (j ∈ _valid_refresh_jtis w)) as [Hin|Hn].
          - right. exists j. split; [exact Hin|].
            rewrite (refresh_token_retires _ _ _ _ _ _ _ payload j); auto.
          - left. unfold refresh_token, presented in *.
            destruct (truthy _); [|reflexivity]. cbn [negb]. unfold_M.
            pose proof (verify_world cfg now
                          (py_or (cookies_get request "refresh_token")
                             (Some (bearer request))) true true w) as Hw.
            destruct (verify_jwt_token_strict _ _ _ _ _ _) as [res w0].
            cbn [fst snd] in Hv, Hw. subst res w0. rewrite Hty', Hj.
            cbn [value_is_str String.eqb Ascii.eqb Bool.eqb negb set_contains].
            rewrite bool_decide_eq_false_2 by exact Hn. reflexivity. }
      all: left; unfold refresh_token, presented in *;
        destruct (truthy _); [|reflexivity]; cbn [negb]; unfold_M;
        pose proof (verify_world cfg now
                      (py_or (cookies_get request "refresh_token")
                         (Some (bearer request))) true true w) as Hw;
        destruct (verify_jwt_token_strict _ _ _ _ _ _) as [res w0];
        cbn [fst snd] in Hv, Hw; subst res w0; rewrite Hty', Hj; reflexivity.
    + left. unfold refresh_token, presented in *.
      destruct (truthy _); [|reflexivity]. cbn [negb]. unfold_M.
      pose proof (verify_world cfg now
                    (py_or (cookies_get request "refresh_token")
                       (Some (bearer request))) true true w) as Hw.
      destruct (verify_jwt_token_strict _ _ _ _ _ _) as [res w0].
      cbn [fst snd] in Hv, Hw. subst res w0. rewrite Hty. reflexivity.
  - left. destruct (truthy (presented request)) eqn:Ht.
    + rewrite (refresh_token_verify_raise _ _ _ _ _ _ _ e Ht Hv). reflexivity.
    + unfold refresh_token. unfold presented in Ht. rewrite Ht. reflexivity.
Qed.

(** X8.  The refresh endpoint refuses an access token: the token that
    [create_access_token_for_user] has returned (for an expiry that is a
    date a [datetime] can hold, no later than the end of the year 9999),
    presented to [refresh_token] at any time up to its expiry, is rejected
    with [NotARefreshToken], and nothing changes. *)
Theorem refresh_token_refuses_access_token
    cfg uuid now now' user expires_minutes w ua ur request db :
  PRIVATE_KEY cfg = PUBLIC_KEY cfg ->
  In user (users w) ->
  record_of w uuid = None ->
  uuid ∉ _revoked_jtis w ->
  datetime_min <= now ->
  now + 60 * int_or expires_minutes (ACCESS_TOKEN_EXP_MIN cfg) <= datetime_max ->
  now <= now' <= now + 60 * int_or expires_minutes (ACCESS_TOKEN_EXP_MIN cfg) ->
  presented request
    = Some (jwt.encode (access_claims cfg uuid now user expires_minutes)
              (PRIVATE_KEY cfg) ALGORITHM) ->
  let w1 := snd (create_access_token_for_user cfg uuid now (Some user) (Some get_db)
                   None expires_minutes w) in
  fst (create_access_token_for_user cfg uuid now (Some user) (Some get_db) None
         expires_minutes w)
    = Ok {| token := jwt.encode (access_claims cfg uuid now user expires_minutes)
                       (PRIVATE_KEY cfg) ALGORITHM;
            jti := uuid;
            exp := now + 60 * int_or expires_minutes (ACCESS_TOKEN_EXP_MIN cfg) |} /\
  refresh_token cfg ua ur now' request db w1 = (Raise NotARefreshToken, w1).
Proof.
  intros Hkey Hin Hfresh Hrev Hmin Hmax Hnow Hp w1. subst w1.
  rewrite (create_access_result cfg uuid now user get_db expires_minutes w Hin Hfresh)
    by lia.
  cbn [fst snd]. split; [reflexivity|].
  match goal with |- refresh_token _ _ _ _ _ _ ?w1 = _ =>
    destruct (refresh_token_past_verify cfg ua ur now' request db w1
                (access_claims cfg uuid now user expires_minutes)) as [Hnr _]
  end; [|apply Hnr; reflexivity].
  rewrite Hp. erewrite (verify_accepts _ _ _ _ _ uuid);
    [reflexivity| |reflexivity|reflexivity|exact Hrev].
  apply decode_access_claims; assumption.
Qed.

Lemma refresh_token_refuses_access_token_witness :
  refresh_token default_cfg "jti-A2" "jti-R2" 1001
    {| cookies := [("refresh_token", token_A)]; bearer := Raw EmptyString |} get_db
    (snd (create_access_token_for_user default_cfg "jti-A" 1000 (Some alice)
            (Some get_db) None None world0))
  = (Raise NotARefreshToken,
     snd (create_access_token_for_user default_cfg "jti-A" 1000 (Some alice)
            (Some get_db) None None world0)).
Proof.
  apply (refresh_token_refuses_access_token default_cfg "jti-A" 1000 1001 alice None
           world0 "jti-A2" "jti-R2"
           {| cookies := [("refresh_token", token_A)]; bearer := Raw EmptyString |}
           get_db);
    [reflexivity | left; reflexivity | reflexivity
    | apply (bool_decide_eq_false_1 ("jti-A" ∈ _revoked_jtis world0));
      vm_compute; reflexivity
    | unfold datetime_min; lia
    | unfold datetime_max; cbn; lia
    | cbn; lia | reflexivity].
Defined.

Lemma set_contains_empty now token k algorithms audience payload :
  jwt.decode now token k algorithms audience = Ok payload ->
  set_contains ∅ (dict_get payload "jti") = Ok false.
Proof.
  intros Hd. destruct (decoded_jti _ _ _ _ _ _ Hd) as [->|[s ->]]; [reflexivity|].
  cbn [set_contains]. rewrite bool_decide_eq_false_2 by apply not_elem_of_empty.
  reflexivity.
Qed.

(** X9.  The two sets live in the process only.  After a restart every
    token that decodes and names the configured issuer is accepted again,
    also one that had been retired or revoked before; and every refresh
    token presented to [refresh_token] is refused with [InvalidOrRevoked],
    also one that had never been rotated. *)
Theorem restart_forgets_the_index cfg now token payload w ua ur request db :
  jwt.decode now token (PUBLIC_KEY cfg) [ALGORITHM] (Some (AUDIENCE cfg)) = Ok payload ->
  dict_get payload "iss" = VStr (ISSUER cfg) ->
  verify_jwt_token_strict cfg now token true true (restarted w)
    = (Ok payload, restarted w) /\
  (presented request = token -> dict_get payload "type" = VStr "refresh" ->
   refresh_token cfg ua ur now request db (restarted w)
     = (Raise InvalidOrRevoked, restarted w)).
Proof.
  intros Hd Hi.
  assert (Hv : verify_jwt_token_strict cfg now token true true (restarted w)
               = (Ok payload, restarted w)).
  { rewrite (verify_decode_ok cfg now token true true _ payload Hd).
    rewrite Hi. cbn [value_is_str]. rewrite String.eqb_refl. cbn [negb andb].
    cbn [restarted _revoked_jtis]. rewrite (set_contains_empty _ _ _ _ _ _ Hd).
    reflexivity. }
  split; [exact Hv|].
  intros Hp Hty.
  destruct (refresh_token_past_verify cfg ua ur now request db (restarted w) payload)
    as [_ Hir]; [rewrite Hp, Hv; reflexivity|].
  apply Hir.
  - rewrite Hty. reflexivity.
  - cbn [restarted _valid_refresh_jtis]. apply (set_contains_empty _ _ _ _ _ _ Hd).
Qed.

Lemma restart_forgets_the_index_witness :
  fst (verify_jwt_token_strict default_cfg 1002 (Some token_R) true true world_rotated)
    = Raise Revoked /\
  verify_jwt_token_strict default_cfg 1002 (Some token_R) true true
    (restarted world_rotated) = (Ok (claims_of token_R), restarted world_rotated) /\
  refresh_token default_cfg "jti-A3" "jti-R3" 1002 request_R get_db
    (restarted world_login) = (Raise InvalidOrRevoked, restarted world_login).
Proof.
  split; [vm_compute; reflexivity|]. split.
  - apply (restart_forgets_the_index default_cfg 1002 (Some token_R) (claims_of token_R)
             world_rotated "jti-A3" "jti-R3" request_R get_db);
      [vm_compute; reflexivity | reflexivity].
  - apply (restart_forgets_the_index default_cfg 1002 (Some token_R) (claims_of token_R)
             world_login "jti-A3" "jti-R3" request_R get_db);
      [vm_compute; reflexivity | reflexivity | reflexivity | reflexivity].
Defined.

(** ** Logout *)

Lemma find_map_mark (ts : list Token.t) id jti :
  find (fun x => String.eqb jti (Token.jti x))
       (map (fun x => if Z.eqb (Token.id x) id then Token.set_revoked x else x) ts)
  = option_map (fun x => if Z.eqb (Token.id x) id then Token.set_revoked x else x)
      (find (fun x => String.eqb jti (Token.jti x)) ts).
Proof.
  induction ts as [|x ts IH]; cbn [find map option_map]; [reflexivity|].
  assert (Hj : Token.jti (if Z.eqb (Token.id x) id then Token.set_revoked x else x)
               = Token.jti x) by (destruct (Z.eqb _ _); reflexivity).
  rewrite Hj. destruct (String.eqb jti (Token.jti x)); [reflexivity|exact IH].
Qed.

(** X10.  [logout] with both cookies decodable marks the rows of both
    tokens revoked in the store, answers with the redirect, and leaves
    [_revoked_jtis] and [_valid_refresh_jtis] as they are: the refresh
    token stays eligible for rotation. *)
Theorem logout_marks_both_rows cfg now request db w pr pa jr ja r1 r2 :
  jwt.decode now (cookies_get request "refresh_token") (PUBLIC_KEY cfg) [ALGORITHM]
    (Some (AUDIENCE cfg)) = Ok pr ->
  jwt.decode now (cookies_get request "access_token") (PUBLIC_KEY cfg) [ALGORITHM]
    (Some (AUDIENCE cfg)) = Ok pa ->
  dict_get pr "jti" = VStr jr ->
  dict_get pa "jti" = VStr ja ->
  record_of w jr = Some r1 ->
  record_of w ja = Some r2 ->
  exists w',
    logout cfg now request db w
      = (Ok (RedirectResponse "/" 302 ["access_token"; "refresh_token"]), w') /\
    option_map Token.revoked (record_of w' jr) = Some true /\
    option_map Token.revoked (record_of w' ja) = Some true /\
    _revoked_jtis w' = _revoked_jtis w /\
    _valid_refresh_jtis w' = _valid_refresh_jtis w /\
    users w' = users w.
Proof.
  intros Hr Ha Hjr Hja H1 H2.
  assert (Ht : truthy (cookies_get request "refresh_token") = true).
  { apply decode_Ok_inv in Hr as (j & -> & _). reflexivity. }
  unfold logout. rewrite Ht. unfold_M. rewrite Hr, Ha, Hjr, Hja.
  unfold query_token_by_jti, revoke_commit. unfold_M. cbn [value_is_str].
  unfold record_of in H1, H2. rewrite H1, H2. cbn [snd fst].
  eexists. split; [reflexivity|].
  unfold record_of. cbn [with_tokens tokens _revoked_jtis _valid_refresh_jtis users].
  rewrite !find_map_mark, H1, H2. cbn [option_map].
  rewrite Z.eqb_refl. split_and!; try reflexivity.
  - destruct (Z.eqb _ _); reflexivity.
  - assert (Hid : Token.id (if Z.eqb (Token.id r2) (Token.id r1)
                            then Token.set_revoked r2 else r2) = Token.id r2)
      by (destruct (Z.eqb _ _); reflexivity).
    rewrite Hid, Z.eqb_refl. reflexivity.
Qed.

Lemma logout_marks_both_rows_witness :
  exists w',
    logout default_cfg 1002 request_R get_db world_login
      = (Ok (RedirectResponse "/" 302 ["access_token"; "refresh_token"]), w') /\
    option_map Token.revoked (record_of w' "jti-R") = Some true /\
    "jti-R" ∈ _valid_refresh_jtis w'.
Proof.
  destruct (logout_marks_both_rows default_cfg 1002 request_R get_db world_login
              (claims_of token_R) (claims_of token_A) "jti-R" "jti-A"
              (Token.mk 2 1 "jti-R" "refresh" 2593000 false 1000 None)
              (Token.mk 1 1 "jti-A" "access" 1900 false 1000 None))
    as (w' & Hl & Hr & _ & _ & Hv & _);
    [vm_compute; reflexivity | vm_compute; reflexivity | reflexivity | reflexivity
    | vm_compute; reflexivity | vm_compute; reflexivity |].
  exists w'. split; [exact Hl|]. split; [exact Hr|]. rewrite Hv.
  apply (bool_decide_eq_true_1 ("jti-R" ∈ _valid_refresh_jtis world_login)).
  vm_compute. reflexivity.
Defined.

(** ** Accounts: registering and logging in *)

Lemma find_app_other (ts : list Token.t) uuid row :
  find (fun r => String.eqb uuid (Token.jti r)) ts = None ->
  Token.jti row <> uuid ->
  find (fun r => String.eqb uuid (Token.jti r)) (ts ++ [row]) = None.
Proof.
  intros Hf Hj. induction ts as [|x ts IH]; cbn [find app] in *.
  - destruct (String.eqb_spec uuid (Token.jti row)); [congruence|reflexivity].
  - destruct (String.eqb uuid (Token.jti x)); [discriminate|]. apply IH. exact Hf.
Qed.

Lemma login_user_result cfg vp ua ur now username password db w user :
  find (fun u => String.eqb (User.username u) username) (users w) = Some user ->
  vp password (User.hashed_password user) = true ->
  record_of w ua = None -> record_of w ur = None -> ua <> ur ->
  datetime_min <= now <= datetime_max ->
  datetime_min <= now + 60 * ACCESS_TOKEN_EXP_MIN cfg <= datetime_max ->
  datetime_min <= now + 86400 * REFRESH_TOKEN_EXP_DAYS cfg <= datetime_max ->
  login_user cfg vp ua ur now username password db w
  = (Ok (PageRedirect "/protected" 302
           [("access_token",
             jwt.encode (access_claims cfg ua now user None) (PRIVATE_KEY cfg) ALGORITHM);
            ("refresh_token",
             jwt.encode (refresh_claims cfg ur now user None) (PRIVATE_KEY cfg)
               ALGORITHM)]),
     mkWorld (_revoked_jtis w) ({[ur]} ∪ _valid_refresh_jtis w) (users w)
       ((tokens w
         ++ [Token.mk (1 + Z.of_nat (length (tokens w))) (User.id user) ua "access"
               (now + 60 * int_or None (ACCESS_TOKEN_EXP_MIN cfg)) false now None])
         ++ [Token.mk (1 + Z.of_nat (length (tokens w
               ++ [Token.mk (1 + Z.of_nat (length (tokens w))) (User.id user) ua "access"
                     (now + 60 * int_or None (ACCESS_TOKEN_EXP_MIN cfg)) false now None])))
               (User.id user) ur "refresh"
               (now + 86400 * int_or None (REFRESH_TOKEN_EXP_DAYS cfg)) false now None])%list).
Proof.
  intros Hf Hp Ha Hr Hne Hn Hsa Hsr.
  assert (Hin : In user (users w)) by (apply find_some in Hf as [H _]; exact H).
  unfold login_user, query_user_by_username. unfold_M. rewrite Hf, Hp. cbn [negb].
  rewrite (create_access_result cfg ua now user db None w Hin Ha Hn Hsa).
  rewrite (create_refresh_result cfg ur now user db None).
  - reflexivity.
  - exact Hin.
  - unfold record_of in *. cbn [with_tokens tokens].
    apply find_app_other; [exact Hr|]. cbn. exact Hne.
  - exact Hn.
  - exact Hsr.
Qed.

(** X11.  [login_user] answers a wrong password exactly as it answers an
    unknown user name, with [401 Invalid credentials], and changes
    nothing. *)
Theorem login_user_refuses_alike cfg vp ua ur now username password db w :
  (find (fun u => String.eqb (User.username u) username) (users w) = None \/
   exists user,
     find (fun u => String.eqb (User.username u) username) (users w) = Some user /\
     vp password (User.hashed_password user) = false) ->
  login_user cfg vp ua ur now username password db w
    = (Raise (HTTPException 401 "Invalid credentials"), w).
Proof.
  intros [Hf|(user & Hf & Hp)]; unfold login_user, query_user_by_username; unfold_M;
    rewrite Hf; [reflexivity|]. rewrite Hp. reflexivity.
Qed.

Lemma login_user_refuses_alike_witness :
  login_user default_cfg toy_verify "jti-A" "jti-R" 1000 "mallory" "guess" get_db world0
    = (Raise (HTTPException 401 "Invalid credentials"), world0) /\
  login_user default_cfg toy_verify "jti-A" "jti-R" 1000 "alice" "guess" get_db world0
    = (Raise (HTTPException 401 "Invalid credentials"), world0).
Proof.
  split.
  - apply (login_user_refuses_alike default_cfg toy_verify "jti-A" "jti-R" 1000
             "mallory" "guess" get_db world0). left. reflexivity.
  - apply (login_user_refuses_alike default_cfg toy_verify "jti-A" "jti-R" 1000
             "alice" "guess" get_db world0). right. exists alice.
    split; reflexivity.
Defined.

(** X12.  [login_user] with the password of an existing user, the two ids
    drawn being fresh and different, and the configured lifetimes leading
    to expiry dates a [datetime] can hold (no later than the end of the
    year 9999; beyond it lines 74 and 107 raise [OverflowError]): it
    answers with the redirect to [/protected] that sets both cookies; the
    access token in the cookie verifies until its expiry with the user's
    claims; the refresh token's id is in [_valid_refresh_jtis]; and exactly
    two rows have been stored. *)
Theorem login_user_issues_both cfg vp ua ur now now' username password db w user :
  PRIVATE_KEY cfg = PUBLIC_KEY cfg ->
  find (fun u => String.eqb (User.username u) username) (users w) = Some user ->
  vp password (User.hashed_password user) = true ->
  record_of w ua = None -> record_of w ur = None -> ua <> ur ->
  ua ∉ _revoked_jtis w ->
  datetime_min <= now ->
  now + 60 * ACCESS_TOKEN_EXP_MIN cfg <= datetime_max ->
  datetime_min <= now + 86400 * REFRESH_TOKEN_EXP_DAYS cfg <= datetime_max ->
  now <= now' <= now + 60 * int_or None (ACCESS_TOKEN_EXP_MIN cfg) ->
  exists w2,
    login_user cfg vp ua ur now username password db w
      = (Ok (PageRedirect "/protected" 302
               [("access_token",
                 jwt.encode (access_claims cfg ua now user None) (PRIVATE_KEY cfg)
                   ALGORITHM);
                ("refresh_token",
                 jwt.encode (refresh_claims cfg ur now user None) (PRIVATE_KEY cfg)
                   ALGORITHM)]), w2) /\
    verify_jwt_token_strict cfg now'
      (Some (jwt.encode (access_claims cfg ua now user None) (PRIVATE_KEY cfg) ALGORITHM))
      true true w2 = (Ok (access_claims cfg ua now user None), w2) /\
    ur ∈ _valid_refresh_jtis w2 /\
    length (tokens w2) = S (S (length (tokens w))).
Proof.
  intros Hkey Hf Hp Ha Hr Hne Hrev Hmin Hmax Hsr Hnow.
  rewrite (login_user_result cfg vp ua ur now username password db w user)
    by (try assumption; cbn [int_or] in Hnow; lia).
  eexists. split; [reflexivity|]. split_and!.
  - apply (verify_accepts _ _ _ _ _ ua); [|reflexivity|reflexivity|exact Hrev].
    apply decode_access_claims; assumption.
  - cbn. set_solver.
  - cbn [tokens]. rewrite !length_app. cbn. lia.
Qed.

Lemma login_user_issues_both_witness :
  exists w2,
    fst (login_user default_cfg toy_verify "jti-A" "jti-R" 1000 "root" "hunter2" get_db
           (started [alice; User.mk 2 "root" None (toy_hash "hunter2") (Some "admin")
                              true 0 []]))
      = Ok (PageRedirect "/protected" 302
              [("access_token",
                jwt.encode (access_claims default_cfg "jti-A" 1000
                              (User.mk 2 "root" None (toy_hash "hunter2") (Some "admin")
                                 true 0 []) None) 1%N ALGORITHM);
               ("refresh_token",
                jwt.encode (refresh_claims default_cfg "jti-R" 1000
                              (User.mk 2 "root" None (toy_hash "hunter2") (Some "admin")
                                 true 0 []) None) 1%N ALGORITHM)]) /\
    "jti-R" ∈ _valid_refresh_jtis w2.
Proof.
  destruct (login_user_issues_both default_cfg toy_verify "jti-A" "jti-R" 1000 1000
              "root" "hunter2" get_db
              (started [alice; User.mk 2 "root" None (toy_hash "hunter2") (Some "admin")
                                 true 0 []])
              (User.mk 2 "root" None (toy_hash "hunter2") (Some "admin") true 0 []))
    as (w2 & Hl & _ & Hin & _);
    [reflexivity | reflexivity | reflexivity | reflexivity | reflexivity | discriminate
    | apply not_elem_of_empty
    | unfold datetime_min; lia
    | unfold datetime_max; cbn; lia
    | unfold datetime_min, datetime_max; cbn; lia
    | cbn; lia |].
  exists w2. rewrite Hl. split; [reflexivity|exact Hin].
Defined.

Lemma find_username_none (us : list User.t) username :
  find (fun x => String.eqb (User.username x) username) us = None ->
  username ∉ map User.username us.
Proof.
  induction us as [|x us IH]; cbn [find map]; intros H.
  - apply not_elem_of_nil.
  - destruct (String.eqb_spec (User.username x) username) as [|Hne]; [discriminate|].
    apply not_elem_of_cons. split; [congruence|]. apply IH. exact H.
Qed.

Lemma find_username_some (us : list User.t) username :
  username ∈ map User.username us ->
  exists u, find (fun x => String.eqb (User.username x) username) us = Some u.
Proof.
  induction us as [|x us IH]; cbn [find map]; intros H.
  - apply elem_of_nil in H. contradiction.
  - destruct (String.eqb (User.username x) username) eqn:Hx; [eauto|].
    apply elem_of_cons in H as [->|H].
    + rewrite String.eqb_refl in Hx. discriminate.
    + apply IH. exact H.
Qed.

Lemma accounts_effect w w' : accounts_in_order w -> effect w w' -> accounts_in_order w'.
Proof.
  intros [Hu Hid] He. destruct He as [? ? ? ? _|? ? ? ? _|? _| |u Hf Hi];
    try (split; cbn; assumption).
  split; cbn.
  - rewrite map_app. cbn [map]. apply NoDup_app. split; [exact Hu|]. split.
    + intros x Hx Hx'. apply list_elem_of_singleton in Hx'. subst x.
      exact (find_username_none _ _ Hf Hx).
    + apply NoDup_singleton.
  - intros i x H. apply lookup_app_Some in H as [H|[Hle H]]; [apply Hid; exact H|].
    apply list_lookup_singleton_Some in H as [Hi' <-]. rewrite Hi. lia.
Qed.

Lemma accounts_effects w w' :
  accounts_in_order w -> rtc effect w w' -> accounts_in_order w'.
Proof. intros Hc H. induction H; [exact Hc|]. eauto using accounts_effect. Qed.

(** X13.  User names stay unique and users stay numbered in order,
    whatever is called; [register_user] refuses a user name that is taken
    with [400 Username already exists] and changes nothing. *)
Theorem accounts_stay_in_order cfg gph vp os w :
  accounts_in_order w ->
  accounts_in_order (after_ops cfg gph vp os w) /\
  (forall now username password db,
     username ∈ map User.username (users w) ->
     register_user gph now username password db w
       = (Raise (HTTPException 400 "Username already exists"), w)).
Proof.
  intros Hc. split.
  - apply (accounts_effects w); [exact Hc|]. apply after_ops_effect.
  - intros now username password db Hin.
    destruct (find_username_some _ _ Hin) as [u Hu].
    unfold register_user, query_user_by_username. unfold_M. rewrite Hu. reflexivity.
Qed.

Lemma accounts_in_order_world0 : accounts_in_order world0.
Proof.
  split; cbn.
  - repeat constructor; set_solver.
  - intros [|[|i]] u H; cbn in H; try discriminate; injection H as <-; reflexivity.
Qed.

Lemma accounts_stay_in_order_witness :
  accounts_in_order
    (after_ops default_cfg toy_hash toy_verify
       [OpRegister 900 "bob" "secret"; OpRegister 901 "bob" "other"] world0) /\
  register_user toy_hash 900 "alice" "secret" get_db world0
    = (Raise (HTTPException 400 "Username already exists"), world0).
Proof.
  destruct (accounts_stay_in_order default_cfg toy_hash toy_verify
              [OpRegister 900 "bob" "secret"; OpRegister 901 "bob" "other"] world0
              accounts_in_order_world0) as [Ha Hr].
  split; [exact Ha|]. apply Hr. cbn. set_solver.
Defined.

Lemma find_app_last {A} (P : A -> bool) (l : list A) x :
  find P l = None -> P x = true -> find P (l ++ [x]) = Some x.
Proof.
  intros Hf Hx. induction l as [|y l IH]; cbn [find app] in *.
  - rewrite Hx. reflexivity.
  - destruct (P y); [discriminate|]. apply IH. exact Hf.
Qed.

(** X14.  A user who has registered can log in with the same password
    (passlib verifying what it hashed), the configured lifetimes leading to
    expiry dates a [datetime] can hold: [register_user] answers with its
    redirect, and the access token that [login_user] then sets carries the
    role [user], the user's name, and the two permissions
    [create_post] and [edit_post] that registration grants, not the
    [read_post] default. *)
Theorem registered_user_logs_in cfg gph vp ua ur now0 now username password db w :
  find (fun u => String.eqb (User.username u) username) (users w) = None ->
  vp password (gph password) = true ->
  record_of w ua = None -> record_of w ur = None -> ua <> ur ->
  datetime_min <= now <= datetime_max ->
  datetime_min <= now + 60 * ACCESS_TOKEN_EXP_MIN cfg <= datetime_max ->
  datetime_min <= now + 86400 * REFRESH_TOKEN_EXP_DAYS cfg <= datetime_max ->
  exists user w1 w2,
    register_user gph now0 username password db w = (Ok (PageRedirect "/" 302 []), w1) /\
    login_user cfg vp ua ur now username password db w1
      = (Ok (PageRedirect "/protected" 302
               [("access_token",
                 jwt.encode (access_claims cfg ua now user None) (PRIVATE_KEY cfg)
                   ALGORITHM);
                ("refresh_token",
                 jwt.encode (refresh_claims cfg ur now user None) (PRIVATE_KEY cfg)
                   ALGORITHM)]), w2) /\
    dict_get (access_claims cfg ua now user None) "role" = VStr "user" /\
    dict_get (access_claims cfg ua now user None) "name" = VStr username /\
    dict_get (access_claims cfg ua now user None) "permissions"
      = VList [VStr "create_post"; VStr "edit_post"].
Proof.
  intros Hf Hp Ha Hr Hne Hn Hsa Hsr.
  unfold register_user, query_user_by_username, add_user_commit. unfold_M. rewrite Hf.
  do 3 eexists. split; [reflexivity|]. split.
  - apply login_user_result; try assumption.
    + cbn [users]. apply find_app_last; [exact Hf|]. cbn. apply String.eqb_refl.
    + cbn. exact Hp.
  - cbn. repeat split.
Qed.

Lemma registered_user_logs_in_witness :
  exists page w2,
    login_user default_cfg toy_verify "jti-B" "jti-S" 950 "bob" "secret" get_db
      (snd (register_user toy_hash 900 "bob" "secret" get_db world0)) = (Ok page, w2).
Proof.
  destruct (registered_user_logs_in default_cfg toy_hash toy_verify "jti-B" "jti-S"
              900 950 "bob" "secret" get_db world0)
    as (user & w1 & w2 & Hreg & Hlog & _);
    [reflexivity | reflexivity | reflexivity | reflexivity | discriminate
    | unfold datetime_min, datetime_max; lia
    | unfold datetime_min, datetime_max; cbn; lia
    | unfold datetime_min, datetime_max; cbn; lia |].
  rewrite Hreg. cbn [snd]. rewrite Hlog. eauto.
Defined.

(** ** The protected page *)

Lemma protected_result cfg now request authorization w payload :
  fst (verify_jwt_token_strict cfg now
         match authorization with
         | Bearer word => Some word
         | _ => cookies_get request "access_token"
         end true true w) = Ok payload ->
  protected cfg now request authorization w
  = (Ok (TemplateResponse "protected.html"
           (if value_truthy (dict_get payload "name")
            then ClaimValue (dict_get payload "name")
            else if value_truthy (dict_get payload "email")
                 then ClaimValue (dict_get payload "email")
                 else UserUnderscore (dict_get payload "user_id"))), w).
Proof.
  intros Hv. unfold protected.
  match type of Hv with fst (verify_jwt_token_strict _ _ ?t _ _ _) = _ =>
    set (token := t) in *;
    pose proof (verify_world cfg now token true true w) as Hw;
    destruct (truthy token) eqn:Ht;
      [|rewrite verify_missing in Hv by exact Ht; discriminate]
  end.
  cbn [negb]. unfold_M.
  destruct (verify_jwt_token_strict cfg now token true true w) as [res w0].
  cbn [fst snd] in Hv, Hw. subst res w0. reflexivity.
Qed.

(** X15.  [protected] does not look at the token's type: a refresh token
    of this application, unexpired and not in [_revoked_jtis], opens the
    page like an access token, sent as a bearer token or in the
    [access_token] cookie; having no name or email claim, it is greeted as
    [user_<id>]. *)
Theorem protected_accepts_refresh_token cfg uuid now now' user expires_days w request :
  PRIVATE_KEY cfg = PUBLIC_KEY cfg ->
  now <= now' <= now + 86400 * int_or expires_days (REFRESH_TOKEN_EXP_DAYS cfg) ->
  uuid ∉ _revoked_jtis w ->
  protected cfg now' request
    (Bearer (jwt.encode (refresh_claims cfg uuid now user expires_days)
               (PRIVATE_KEY cfg) ALGORITHM)) w
    = (Ok (TemplateResponse "protected.html" (UserUnderscore (VInt (User.id user)))), w) /\
  (cookies_get request "access_token"
     = Some (jwt.encode (refresh_claims cfg uuid now user expires_days)
               (PRIVATE_KEY cfg) ALGORITHM) ->
   protected cfg now' request NoHeader w
     = (Ok (TemplateResponse "protected.html" (UserUnderscore (VInt (User.id user)))), w)).
Proof.
  intros Hkey Hnow Hrev.
  assert (Hv : verify_jwt_token_strict cfg now'
                 (Some (jwt.encode (refresh_claims cfg uuid now user expires_days)
                          (PRIVATE_KEY cfg) ALGORITHM)) true true w
               = (Ok (refresh_claims cfg uuid now user expires_days), w)).
  { apply (verify_accepts _ _ _ _ _ uuid); [|reflexivity|reflexivity|exact Hrev].
    apply decode_refresh_claims; assumption. }
  split.
  - rewrite (protected_result _ _ _ _ _ (refresh_claims cfg uuid now user expires_days));
      [reflexivity|]. rewrite Hv. reflexivity.
  - intros Hc.
    rewrite (protected_result _ _ _ _ _ (refresh_claims cfg uuid now user expires_days));
      [reflexivity|]. rewrite Hc, Hv. reflexivity.
Qed.

Lemma protected_accepts_refresh_token_witness :
  protected default_cfg 1001 request_R (Bearer token_R) world_login
  = (Ok (TemplateResponse "protected.html" (UserUnderscore (VInt 1))), world_login).
Proof.
  apply (protected_accepts_refresh_token default_cfg "jti-R" 1000 1001 alice None
           world_login request_R);
    [reflexivity | cbn; lia
    | apply (bool_decide_eq_false_1 ("jti-R" ∈ _revoked_jtis world_login));
      vm_compute; reflexivity].
Defined.

(** X16.  [protected] never changes anything; it reads one token only: a
    bearer header makes it ignore the cookie altogether, so that a header
    with an empty token sends even the holder of a good cookie back to the
    login page; and a request with neither is sent there too. *)
Theorem protected_reads_one_token cfg now request w :
  (forall authorization, snd (protected cfg now request authorization w) = w) /\
  (forall word,
     protected cfg now request (Bearer word) w
     = protected cfg now {| cookies := [("access_token", word)];
                            bearer := bearer request |} NoHeader w) /\
  protected cfg now request (Bearer (Raw EmptyString)) w
    = (Ok (PageRedirect "/" 302 []), w) /\
  (cookies_get request "access_token" = None ->
   protected cfg now request NoHeader w = (Ok (PageRedirect "/" 302 []), w) /\
   protected cfg now request OtherScheme w = (Ok (PageRedirect "/" 302 []), w)).
Proof.
  split_and!.
  - intros authorization. apply protected_world.
  - intros word. unfold protected, cookies_get. cbn [cookies find fst snd option_map].
    rewrite String.eqb_refl. reflexivity.
  - reflexivity.
  - intros Hc. unfold protected. rewrite Hc. split; reflexivity.
Qed.

Lemma protected_reads_one_token_witness :
  fst (protected default_cfg 1001 request_R NoHeader world_login)
    = Ok (TemplateResponse "protected.html" (ClaimValue (VStr "alice"))) /\
  protected default_cfg 1001 request_R (Bearer (Raw EmptyString)) world_login
    = (Ok (PageRedirect "/" 302 []), world_login).
Proof.
  split; [vm_compute; reflexivity|].
  apply (protected_reads_one_token default_cfg 1001 request_R world_login).
Defined.

(** ** What the client sees of an error *)

Lemma respond_Raise e : respond (Raise e) = RedirectResponse "/" 302 [].
Proof.
  destruct e; cbn [respond global_exception_handler]; try reflexivity.
  unfold http_exception_handler. destruct (existsb _ _); reflexivity.
Qed.

(** X17.  The two exception handlers answer everything an endpoint raises
    with the same redirect to the login page: a client cannot tell one
    rejection from another, nor a rejection from a crash.  For the refresh
    endpoint, which never returns, this redirect is the answer to every
    request in every state. *)
Theorem every_error_is_the_same_redirect cfg ua ur now request db w :
  (forall e, respond (Raise e) = RedirectResponse "/" 302 []) /\
  respond (fst (refresh_token cfg ua ur now request db w)) = RedirectResponse "/" 302 [].
Proof.
  split; [exact respond_Raise|].
  destruct (fst (refresh_token cfg ua ur now request db w)) as [r|e] eqn:H.
  - exfalso. exact (refresh_token_never_returns _ _ _ _ _ _ _ _ H).
  - apply respond_Raise.
Qed.

(** ** The audience flag *)

(** X18.  With [check_audience=False] the verifier refuses every token
    this application issues, access or refresh, during its whole lifetime,
    with [Token invalid: Invalid audience]: the tokens carry an [aud]
    claim, and [jwt.decode] is then called without an audience to compare
    it with. *)
Theorem issued_tokens_fail_without_audience_check
    cfg uuid now now' user expires_minutes expires_days ci w :
  PRIVATE_KEY cfg = PUBLIC_KEY cfg ->
  (now <= now' <= now + 60 * int_or expires_minutes (ACCESS_TOKEN_EXP_MIN cfg) ->
   verify_jwt_token_strict cfg now'
     (Some (jwt.encode (access_claims cfg uuid now user expires_minutes)
              (PRIVATE_KEY cfg) ALGORITHM)) false ci w
   = (Raise InvalidAudience, w)) /\
  (now <= now' <= now + 86400 * int_or expires_days (REFRESH_TOKEN_EXP_DAYS cfg) ->
   verify_jwt_token_strict cfg now'
     (Some (jwt.encode (refresh_claims cfg uuid now user expires_days)
              (PRIVATE_KEY cfg) ALGORITHM)) false ci w
   = (Raise InvalidAudience, w)).
Proof.
  intros Hkey. split; intros Hnow; unfold jwt.encode;
    apply (verify_without_audience_rejects_aud cfg now' _ (AUDIENCE cfg) ci w);
    try reflexivity;
    try (split; [reflexivity|cbn [jws_signer]; rewrite Hkey; reflexivity]).
  - unfold jwt._validate_nbf. cbn. destruct (Z.ltb_spec now' now); [lia|reflexivity].
  - unfold jwt._validate_exp. cbn.
    match goal with |- context [?a <? ?b] => destruct (Z.ltb_spec a b) end;
      [lia|reflexivity].
  - unfold jwt._validate_nbf. cbn. destruct (Z.ltb_spec now' now); [lia|reflexivity].
  - unfold jwt._validate_exp. cbn.
    match goal with |- context [?a <? ?b] => destruct (Z.ltb_spec a b) end;
      [lia|reflexivity].
Qed.

Lemma issued_tokens_fail_without_audience_check_witness :
  verify_jwt_token_strict default_cfg 1001 (Some token_A) false true world_login
    = (Raise InvalidAudience, world_login) /\
  verify_jwt_token_strict default_cfg 1001 (Some token_A) true true world_login
    = (Ok (claims_of token_A), world_login).
Proof.
  split; [|vm_compute; reflexivity].
  apply (issued_tokens_fail_without_audience_check default_cfg "jti-A" 1000 1001 alice
           None None true world_login); [reflexivity | cbn; lia].
Defined.

(** ** Overrides *)

Lemma dict_get_set d k v k' :
  dict_get (dict_set d k v) k' = if String.eqb k k' then v else dict_get d k'.
Proof.
  induction d as [|[a b] d IH]; cbn [dict_set dict_get]; [reflexivity|].
  destruct (String.eqb_spec a k) as [->|Hak]; cbn [dict_get].
  - destruct (String.eqb k k'); reflexivity.
  - rewrite IH. destruct (String.eqb_spec a k') as [->|Hak']; [|reflexivity].
    destruct (String.eqb_spec k k'); [congruence|reflexivity].
Qed.

Lemma dict_get_update_other e d k :
  dict_contains e k = false -> dict_get (dict_update d e) k = dict_get d k.
Proof.
  unfold dict_update. revert d. induction e as [|[a b] e IH]; intros d H;
    cbn [fold_left fst snd dict_contains] in *; [reflexivity|].
  destruct (String.eqb a k) eqn:Hak; [discriminate|].
  rewrite IH by exact H. rewrite dict_get_set, Hak. reflexivity.
Qed.

Lemma dict_contains_false (e : dict) k : k ∉ map fst e -> dict_contains e k = false.
Proof.
  induction e as [|[a b] e IH]; cbn [map fst dict_contains]; intros H; [reflexivity|].
  apply not_elem_of_cons in H as [Hne H].
  destruct (String.eqb_spec a k); [congruence|]. apply IH. exact H.
Qed.

Lemma dict_get_update_in e d k v :
  NoDup (map fst e) -> In (k, v) e -> dict_get (dict_update d e) k = v.
Proof.
  unfold dict_update. revert d. induction e as [|[a b] e IH]; intros d Hnd Hin;
    cbn [fold_left fst snd map In] in *; [contradiction|].
  apply NoDup_cons in Hnd as [Ha Hnd]. destruct Hin as [[= -> ->]|Hin].
  - fold (dict_update (dict_set d k v) e).
    rewrite dict_get_update_other by (apply dict_contains_false; exact Ha).
    rewrite dict_get_set, String.eqb_refl. reflexivity.
  - apply IH; assumption.
Qed.

(** X19.  The overrides given to [create_access_token_for_user] win over
    every claim the function computes, the registered ones included, and
    leave the other claims alone; the row it stores is not touched by
    them: it is filed under the id drawn and with the lifetime computed,
    whatever [jti] and [exp] the token then carries.  The lifetime computed
    must lead to a date a [datetime] can hold (from the year 1 to the end
    of the year 9999): line 74 computes it before the overrides are looked
    at, and raises [OverflowError] otherwise. *)
Theorem overrides_win cfg uuid now user db extra expires_minutes w :
  In user (users w) ->
  record_of w uuid = None ->
  NoDup (map fst extra) ->
  datetime_min <= now <= datetime_max ->
  datetime_min <= now + 60 * int_or expires_minutes (ACCESS_TOKEN_EXP_MIN cfg)
    <= datetime_max ->
  exists issued w1,
    create_access_token_for_user cfg uuid now (Some user) (Some db) (Some extra)
      expires_minutes w = (Ok issued, w1) /\
    jti issued = uuid /\
    record_of w1 uuid
      = Some (Token.mk (1 + Z.of_nat (length (tokens w))) (User.id user) uuid "access"
                (now + 60 * int_or expires_minutes (ACCESS_TOKEN_EXP_MIN cfg))
                false now None) /\
    (forall k v, In (k, v) extra -> dict_get (claims_of (token issued)) k = v) /\
    (forall k, dict_contains extra k = false ->
       dict_get (claims_of (token issued)) k
       = dict_get (access_claims cfg uuid now user expires_minutes) k).
Proof.
  intros Hin Hfresh Hnd Hn Hs.
  unfold create_access_token_for_user, add_token_commit. unfold_M.
  rewrite (utcnow_plus_fits _ _ Hn Hs).
  unfold record_of in *.
  rewrite (existsb_jti_fresh _ _ Hfresh), (existsb_user_known _ _ Hin). cbn [negb].
  do 2 eexists. split; [reflexivity|]. cbn [jti token claims_of jwt.encode jws_payload].
  split; [reflexivity|]. split.
  { cbn [with_tokens tokens]. apply find_app_fresh; [exact Hfresh|reflexivity]. }
  fold (access_claims cfg uuid now user expires_minutes).
  assert (Hp : match extra with
               | [] => access_claims cfg uuid now user expires_minutes
               | _ :: _ => dict_update (access_claims cfg uuid now user expires_minutes)
                             extra
               end = dict_update (access_claims cfg uuid now user expires_minutes) extra)
    by (destruct extra; reflexivity).
  rewrite Hp. split.
  - intros k v Hkv. apply dict_get_update_in; assumption.
  - intros k Hk. apply dict_get_update_other. exact Hk.
Qed.

Lemma overrides_win_witness :
  exists issued w1,
    create_access_token_for_user default_cfg "jti-X" 1000 (Some alice) (Some get_db)
      (Some [("jti", VStr "other"); ("role", VStr "admin")]) None world0
      = (Ok issued, w1) /\
    dict_get (claims_of (token issued)) "jti" = VStr "other" /\
    dict_get (claims_of (token issued)) "role" = VStr "admin" /\
    option_map Token.jti (record_of w1 "jti-X") = Some "jti-X".
Proof.
  destruct (overrides_win default_cfg "jti-X" 1000 alice get_db
              [("jti", VStr "other"); ("role", VStr "admin")] None world0)
    as (issued & w1 & Hc & _ & Hrow & Hin & _);
    [left; reflexivity | reflexivity
    | cbn; repeat constructor; set_solver
    | unfold datetime_min, datetime_max; lia
    | unfold datetime_min, datetime_max; cbn; lia |].
  exists issued, w1. split; [exact Hc|]. split; [apply Hin; left; reflexivity|].
  split; [apply Hin; right; left; reflexivity|]. rewrite Hrow. reflexivity.
Defined.

(** ** The administrator's revocation *)

Lemma mark_by_id_is_mark_by_jti w r token_jti :
  consistent w ->
  record_of w token_jti = Some r ->
  map (fun x => if Z.eqb (Token.id x) (Token.id r) then Token.set_revoked x else x)
      (tokens w)
  = map (fun x => if String.eqb token_jti (Token.jti x) then Token.set_revoked x else x)
      (tokens w).
Proof.
  intros [Hid Hu _ _] Hrec. unfold record_of in Hrec.
  apply find_some in Hrec as [Hr Hj]. apply String.eqb_eq in Hj.
  apply map_ext_in. intros x Hx.
  apply list_elem_of_In in Hr, Hx.
  destruct (Z.eqb_spec (Token.id x) (Token.id r)) as [He|Hne].
  - apply list_elem_of_lookup in Hr as [i Hi], Hx as [i' Hi'].
    rewrite (Hid _ _ Hi), (Hid _ _ Hi') in He.
    assert (i' = i) by lia. subst i'. rewrite Hi in Hi'. injection Hi' as <-.
    rewrite Hj, String.eqb_refl. reflexivity.
  - destruct (String.eqb_spec token_jti (Token.jti x)) as [Hjx|]; [|reflexivity].
    exfalso. apply Hne. f_equal. apply (same_jti_same_row (tokens w)); try assumption.
    congruence.
Qed.

(** X20.  In a consistent world a successful [admin_revoke] marks the row
    with the given [jti] and no other: every other row, the users and the
    two sets are what they were. *)
Theorem admin_revoke_marks_one_row cfg now token_jti request db w response w' :
  consistent w ->
  admin_revoke cfg now token_jti request db w = (Ok response, w') ->
  response = RedirectResponse "/admin/tokens" 302 [] /\
  tokens w'
    = map (fun x => if String.eqb token_jti (Token.jti x) then Token.set_revoked x else x)
        (tokens w) /\
  users w' = users w /\
  _revoked_jtis w' = _revoked_jtis w /\
  _valid_refresh_jtis w' = _valid_refresh_jtis w.
Proof.
  intros Hc. unfold admin_revoke. unfold_M.
  destruct (negb _); [discriminate|].
  pose proof (verify_world cfg now (cookies_get request "access_token") true true w) as Hw.
  destruct (verify_jwt_token_strict _ _ _ _ _ _) as [[p|e] w0]; cbn in Hw; subst w0;
    [|discriminate].
  destruct (negb _); [discriminate|].
  unfold query_token_by_jti, revoke_commit. unfold_M. cbn [value_is_str].
  destruct (find _ (tokens w)) as [r|] eqn:Hf; [|discriminate].
  intros [= <- <-]. cbn [with_tokens tokens users _revoked_jtis _valid_refresh_jtis].
  split_and!; try reflexivity.
  apply mark_by_id_is_mark_by_jti; assumption.
Qed.

Lemma consistent_world_admin : consistent world_admin.
Proof.
  change world_admin with
    (after_ops default_cfg toy_hash toy_verify
       [OpCore (CallCreateAccess "jti-A" 1000 (Some alice) (Some get_db) None None);
        OpCore (CallCreateRefresh "jti-R" 1000 (Some alice) (Some get_db) None);
        OpCore (CallCreateAccess "jti-ADM" 1000 (Some root_admin) (Some get_db)
                  None None)]
       (started [alice; root_admin])).
  apply (consistent_effects (started [alice; root_admin]));
    [apply consistent_started|apply after_ops_effect].
Qed.

Lemma admin_revoke_marks_one_row_witness :
  map Token.revoked
    (tokens (snd (admin_revoke default_cfg 1001 "jti-R" request_admin get_db
                    world_admin)))
  = [false; true; false].
Proof.
  destruct (admin_revoke default_cfg 1001 "jti-R" request_admin get_db world_admin)
    as [[response|e] w'] eqn:H; [|vm_compute in H; discriminate].
  destruct (admin_revoke_marks_one_row default_cfg 1001 "jti-R" request_admin get_db
              world_admin response w' consistent_world_admin H) as (_ & Ht & _).
  cbn [snd]. rewrite Ht. vm_compute. reflexivity.
Defined.

(** X21.  [admin_revoke] changes nothing unless it succeeds, and it does
    not succeed for a user who is not an administrator: presented with the
    access token this application has issued to a user whose role is not
    [admin], it raises [403 Admins only]. *)
Theorem admin_revoke_needs_an_admin
    cfg uuid now now' user expires_minutes token_jti request db w :
  (forall e, fst (admin_revoke cfg now' token_jti request db w) = Raise e ->
     snd (admin_revoke cfg now' token_jti request db w) = w) /\
  (PRIVATE_KEY cfg = PUBLIC_KEY cfg ->
   now <= now' <= now + 60 * int_or expires_minutes (ACCESS_TOKEN_EXP_MIN cfg) ->
   uuid ∉ _revoked_jtis w ->
   User.role user <> Some "admin" ->
   cookies_get request "access_token"
     = Some (jwt.encode (access_claims cfg uuid now user expires_minutes)
               (PRIVATE_KEY cfg) ALGORITHM) ->
   admin_revoke cfg now' token_jti request db w
     = (Raise (HTTPException 403 "Admins only"), w)).
Proof.
  split.
  - intros e. unfold admin_revoke. unfold_M.
    destruct (negb _); [reflexivity|].
    pose proof (verify_world cfg now' (cookies_get request "access_token") true true w)
      as Hw.
    destruct (verify_jwt_token_strict _ _ _ _ _ _) as [[p|e0] w0]; cbn in Hw; subst w0;
      [|reflexivity].
    destruct (negb _); [reflexivity|].
    unfold query_token_by_jti. unfold_M.
    destruct (find _ (tokens w)); [discriminate|reflexivity].
  - intros Hkey Hnow Hrev Hrole Hc. unfold admin_revoke. rewrite Hc.
    cbn [truthy jwt.encode negb]. unfold_M.
    fold (jwt.encode (access_claims cfg uuid now user expires_minutes)
            (PRIVATE_KEY cfg) ALGORITHM).
    rewrite (verify_accepts _ _ _ _ (access_claims cfg uuid now user expires_minutes) uuid);
      [|apply decode_access_claims; assumption|reflexivity|reflexivity|exact Hrev].
    cbn [access_claims dict_get String.eqb Ascii.eqb Bool.eqb].
    destruct (User.role user) as [r|]; [|reflexivity].
    cbn [value_is_str]. destruct (String.eqb_spec r "admin"); [congruence|reflexivity].
Qed.

Lemma admin_revoke_needs_an_admin_witness :
  admin_revoke default_cfg 1001 "jti-R" request_R get_db world_login
    = (Raise (HTTPException 403 "Admins only"), world_login).
Proof.
  apply (admin_revoke_needs_an_admin default_cfg "jti-A" 1000 1001 alice None "jti-R"
           request_R get_db world_login);
    [reflexivity | cbn; lia
    | apply (bool_decide_eq_false_1 ("jti-A" ∈ _revoked_jtis world_login));
      vm_compute; reflexivity
    | discriminate | reflexivity].
Defined.

(** ** Lifetimes beyond the calendar *)

(** X22.  A lifetime that leads past the last date a [datetime] can hold
    (the end of the year 9999) makes both issuing functions raise
    [OverflowError] where they compute the expiry (lines 74 and 107),
    before a token is built or a row is stored: the world is what it
    was. *)
Theorem issuing_past_the_calendar_raises
    cfg uuid now user db extra expires_minutes expires_days w :
  (datetime_max < now + 60 * int_or expires_minutes (ACCESS_TOKEN_EXP_MIN cfg) ->
   exists msg,
     create_access_token_for_user cfg uuid now (Some user) (Some db) extra
       expires_minutes w = (Raise (OverflowError msg), w)) /\
  (datetime_max < now + 86400 * int_or expires_days (REFRESH_TOKEN_EXP_DAYS cfg) ->
   exists msg,
     create_refresh_token_for_user cfg uuid now (Some user) (Some db) expires_days w
       = (Raise (OverflowError msg), w)).
Proof.
  split; intros H; destruct (utcnow_plus_overflow _ _ H) as [msg Hm]; exists msg.
  - unfold create_access_token_for_user. unfold_M. rewrite Hm. reflexivity.
  - unfold create_refresh_token_for_user. unfold_M. rewrite Hm. reflexivity.
Qed.

Lemma issuing_past_the_calendar_raises_witness :
  create_access_token_for_user default_cfg "jti-A" 1000 (Some alice) (Some get_db) None
    (Some 10000000000) world0
    = (Raise (OverflowError "date value out of range"), world0) /\
  create_refresh_token_for_user default_cfg "jti-R" 1000 (Some alice) (Some get_db)
    (Some 1000000000) world0
    = (Raise (OverflowError "days=1000000000; must have magnitude <= 999999999"),
       world0).
Proof.
  destruct (issuing_past_the_calendar_raises default_cfg "jti-A" 1000 alice get_db None
              (Some 10000000000) (Some 1000000000) world0) as [Ha _].
  destruct (issuing_past_the_calendar_raises default_cfg "jti-R" 1000 alice get_db None
              (Some 10000000000) (Some 1000000000) world0) as [_ Hr].
  destruct Ha as [ma Ha]; [unfold datetime_max; cbn; lia|].
  destruct Hr as [mr Hr]; [unfold datetime_max; cbn; lia|].
  split.
  - rewrite Ha. vm_compute in Ha. injection Ha as <-. reflexivity.
  - rewrite Hr. vm_compute in Hr. injection Hr as <-. reflexivity.
Defined.
